(** * The override proxy: request rewriting and relaying (main.go)

    A shallow embedding of the two HTTP handlers of main.go,
    [completions] (POST /v1/chat/completions) and [codeCompletions]
    (POST /v1/engines/copilot-codex/completions), together with the
    operations of the libraries they call.

    The request body is a JSON text that the handlers never decode into a
    Go struct: they read and edit it by path with gjson and sjson.  The
    embedding keeps the text as the JSON value it denotes, an object being
    the ordered list of its members (duplicate names included, as in the
    text), and gives gjson and sjson their meaning on such values.

    The start of the process is embedded too: [readConfig] with the
    overrides it takes from the environment, [getClient] and
    [NewProxyService]. *)

From Stdlib Require Import PrimFloat FloatOps SpecFloat.
From Stdlib Require Import ZArith String Ascii List Bool Lia.
From Stdlib Require Import DecimalString DecimalPos.
From stdpp Require Import gmap strings list fin_maps.
Import ListNotations.

Local Open Scope Z_scope.

(** ** Machine numbers *)

(** What is left of an integer in a 64-bit signed word: Go's [int] and
    [int64] arithmetic wraps around without notice. *)
Definition wrap64 (n : Z) : Z := (n + 2 ^ 63) mod 2 ^ 64 - 2 ^ 63.

(** The conversion [int64(f)] of a float64.  The fraction is cut off.
    Go leaves the result open when the value does not fit; the
    lowest int64 is what the conversion instruction of amd64 gives
    then, and for an infinity or a NaN. *)
Definition int64 (f : float) : Z :=
  match Prim2SF f with
  | S754_zero _ => 0
  | S754_finite s m e =>
      let n := Z.shiftl (Z.pos m) e in
      let n := if s then - n else n in
      if (- 2 ^ 63 <=? n) && (n <? 2 ^ 63) then n else - 2 ^ 63
  | _ => - 2 ^ 63
  end.

(** ** JSON values *)

(** A number written with digits only, after an optional minus sign, is
    kept as the integer it denotes, of any size: [JNum].  A number
    written with a fraction or an exponent is kept as gjson holds it, by
    its text ([Result.Raw]) and by the float64 that
    [strconv.ParseFloat] makes of that text ([Result.Num]): [JFloat].
    The handlers read numbers only through [Result.Int()] and
    [Result.String()], and write only the integer [ChatMaxTokens].  No
    proof below goes by induction on a value, so no induction scheme is
    asked for. *)
#[local] Unset Elimination Schemes.
Inductive json : Type :=
| JNull
| JBool (b : bool)
| JNum (n : Z)
| JFloat (raw : string) (num : float)
| JStr (s : string)
| JArr (xs : list json)
| JObj (ms : list (string * json)).
#[local] Set Elimination Schemes.

(** A path such as "messages.3.content" is kept as the list of its
    components.  The handlers only use literal member names and the
    decimal index that [strconv.Itoa] prints. *)
Definition path := list string.

(** ** strconv and strings *)

Module strconv.

(** [strconv.Itoa]. *)
Definition Itoa (n : Z) : string := NilZero.string_of_int (Z.to_int n).

(** The unsigned decimal reading of a path component, [None] when the
    component is not a numeral. *)
Definition atoui (s : string) : option nat :=
  (fun d => N.to_nat (N.of_uint d)) <$> NilZero.uint_of_string s.

Definition digit (c : ascii) : option Z :=
  let n := Z.of_nat (nat_of_ascii c) in
  if (48 <=? n) && (n <=? 57) then Some (n - 48) else None.

Fixpoint digits (s : string) (acc : Z) : option Z :=
  match s with
  | EmptyString => Some acc
  | String c s' =>
      match digit c with
      | Some d => digits s' (acc * 10 + d)
      | None => None
      end
  end.

End strconv.

Module strings.

(** [strings.Contains s substr]. *)
Fixpoint Contains (s substr : string) : bool :=
  String.prefix substr s ||
  match s with
  | EmptyString => false
  | String _ s' => Contains s' substr
  end.

End strings.

(** ** The text of a value *)

(** [Raw v] is the JSON text of [v] without insignificant white space; it
    is what [Result.String()] returns for an array or an object, and
    for a number written with digits only.  For a number with a fraction
    or an exponent [Result.String()] is
    [strconv.FormatFloat(num, 'f', -1, 64)]: such a number is taken to be
    written the way [FormatFloat] prints it, so that its text serves. *)
Definition escape_char (c : ascii) : string :=
  if Ascii.eqb c "034"%char then String "\"%char (String "034"%char EmptyString)
  else if Ascii.eqb c "\"%char then String "\"%char (String "\"%char EmptyString)
  else String c EmptyString.

Fixpoint escape (s : string) : string :=
  match s with
  | EmptyString => EmptyString
  | String c s' => escape_char c +:+ escape s'
  end.

Definition quote (s : string) : string :=
  String "034"%char (escape s +:+ String "034"%char EmptyString).

Fixpoint Raw (v : json) : string :=
  match v with
  | JNull => "null"
  | JBool true => "true"
  | JBool false => "false"
  | JNum n => strconv.Itoa n
  | JFloat raw _ => raw
  | JStr s => quote s
  | JArr xs =>
      "[" +:+
      (fix elements (xs : list json) : string :=
         match xs with
         | [] => EmptyString
         | x :: rest =>
             match rest with
             | [] => Raw x
             | _ => Raw x +:+ "," +:+ elements rest
             end
         end) xs +:+ "]"
  | JObj ms =>
      "{" +:+
      (fix members (ms : list (string * json)) : string :=
         match ms with
         | [] => EmptyString
         | (k, x) :: rest =>
             match rest with
             | [] => quote k +:+ ":" +:+ Raw x
             | _ => quote k +:+ ":" +:+ Raw x +:+ "," +:+ members rest
             end
         end) ms +:+ "}"
  end.

(** ** Members of an object *)

(** The value of the first member called [k]. *)
Fixpoint member (k : string) (ms : list (string * json)) : option json :=
  match ms with
  | [] => None
  | (k', x) :: rest => if String.eqb k k' then Some x else member k rest
  end.

(** The first member called [k] gets the value [x]. *)
Fixpoint update (k : string) (x : json) (ms : list (string * json))
  : list (string * json) :=
  match ms with
  | [] => []
  | (k', y) :: rest =>
      if String.eqb k k' then (k', x) :: rest else (k', y) :: update k x rest
  end.

(** The first member called [k] is dropped. *)
Fixpoint remove (k : string) (ms : list (string * json))
  : list (string * json) :=
  match ms with
  | [] => []
  | (k', y) :: rest =>
      if String.eqb k k' then rest else (k', y) :: remove k rest
  end.

(** How many members are called [k]. *)
Fixpoint occurrences (k : string) (ms : list (string * json)) : nat :=
  match ms with
  | [] => O
  | (k', _) :: rest =>
      if String.eqb k k' then S (occurrences k rest) else occurrences k rest
  end.

(** ** gjson *)

Module gjson.

(** A [gjson.Result]: the value found, or nothing when the path does not
    exist. *)
Definition Result := option json.

(** One step of a path.  In an object the first member of that name is
    taken; in an array the component is an index; a scalar has nothing
    below it. *)
Definition step (v : json) (k : string) : Result :=
  match v with
  | JObj ms => member k ms
  | JArr xs =>
      match strconv.atoui k with
      | Some n => xs !! n
      | None => None
      end
  | _ => None
  end.

(** [gjson.GetBytes(json, path)]. *)
Fixpoint Get (v : json) (p : path) : Result :=
  match p with
  | [] => Some v
  | k :: rest =>
      match step v k with
      | Some sub => Get sub rest
      | None => None
      end
  end.

(** [Result.Get(path)]. *)
Definition ResultGet (r : Result) (p : path) : Result :=
  match r with
  | Some v => Get v p
  | None => None
  end.

(** [Result.Exists()]. *)
Definition Exists (r : Result) : bool :=
  match r with
  | Some _ => true
  | None => false
  end.

(** [Result.String()]. *)
Definition toString (r : Result) : string :=
  match r with
  | None => EmptyString
  | Some JNull => EmptyString
  | Some (JBool true) => "true"
  | Some (JBool false) => "false"
  | Some (JStr s) => s
  | Some v => Raw v
  end.

(** The loop of gjson's [parseInt]: the digits are added up in an
    int64, with no check for overflow; any other character ends the
    reading with 0 and [false]. *)
Fixpoint parseDigits (s : string) (n : Z) : Z * bool :=
  match s with
  | EmptyString => (n, true)
  | String c s' =>
      match strconv.digit c with
      | Some d => parseDigits s' (wrap64 (n * 10 + d))
      | None => (0, false)
      end
  end.

(** gjson's [parseInt]: an optional minus sign followed by digits only;
    the int64 read and [true], or 0 and [false] when the string is not
    of that form. *)
Definition parseInt (s : string) : Z * bool :=
  match s with
  | EmptyString => (0, false)
  | String c s' =>
      if Ascii.eqb c "-"%char then
        match s' with
        | EmptyString => (0, false)
        | _ =>
            let (n, ok) := parseDigits s' 0 in
            if ok then (wrap64 (n * -1), true) else (0, false)
        end
      else parseDigits s 0
  end.

(** The largest integer that gjson's [safeInt] converts directly,
    2^53 - 1. *)
Definition maxSafeInteger : Z := 9007199254740991.

(** gjson's [safeInt]: a float64 between -(2^53 - 1) and 2^53 - 1 is
    converted to an int64, any other is not. *)
Definition safeInt (f : float) : option Z :=
  if PrimFloat.ltb f (-9007199254740991)%float
     || PrimFloat.ltb 9007199254740991%float f
  then None else Some (int64 f).

(** [Result.Int()], an int64.  For a string it is what [parseInt] reads
    in it.  For a number it is [safeInt] of its float64 if that applies,
    else [parseInt] of its text if that applies, else the conversion of
    the float64.  The float64 of an integer written out in digits is in
    the range of [safeInt] exactly when the integer is, and is converted
    back to that integer. *)
Definition Int (r : Result) : Z :=
  match r with
  | Some (JBool true) => 1
  | Some (JStr s) => fst (parseInt s)
  | Some (JNum n) =>
      if (- maxSafeInteger <=? n) && (n <=? maxSafeInteger) then n
      else fst (parseInt (strconv.Itoa n))
  | Some (JFloat raw num) =>
      match safeInt num with
      | Some i => i
      | None =>
          let (i, ok) := parseInt raw in
          if ok then i else int64 num
      end
  | _ => 0
  end.

(** [Result.Array()]: the elements of an array, nothing for a null or
    missing value, and the value itself as the only element
    otherwise. *)
Definition Array (r : Result) : list json :=
  match r with
  | None => []
  | Some JNull => []
  | Some (JArr xs) => xs
  | Some v => [v]
  end.

End gjson.

(** ** sjson

    sjson edits the text in place.  It finds the place of a path with
    [gjson.Get], hence at the first member of each name, and rewrites
    that place only: a second member of the same name is neither read
    nor written nor deleted. *)

Module sjson.

(** What sjson writes for the part of a path that does not exist yet: an
    array, padded with nulls, for a numeric component and an object for
    any other. *)
Fixpoint build (p : path) (new : json) : json :=
  match p with
  | [] => new
  | k :: rest =>
      match strconv.atoui k with
      | Some n => JArr (replicate n JNull ++ [build rest new])
      | None => JObj [(k, build rest new)]
      end
  end.

(** The value [v] with [new] at path [p]; [None] is sjson's error
    "cannot set array element for non-numeric key".  An existing value
    is replaced where it stands; a missing member is added at the end of
    its object, a missing element at its index; a scalar on the way
    gives place to a fresh container. *)
Fixpoint set (p : path) (v new : json) : option json :=
  match p with
  | [] => Some new
  | k :: rest =>
      match v with
      | JObj ms =>
          match member k ms with
          | Some sub =>
              match set rest sub new with
              | Some sub' => Some (JObj (update k sub' ms))
              | None => None
              end
          | None => Some (JObj (ms ++ [(k, build rest new)]))
          end
      | JArr xs =>
          match strconv.atoui k with
          | Some n =>
              match xs !! n with
              | Some sub =>
                  match set rest sub new with
                  | Some sub' => Some (JArr (<[n := sub']> xs))
                  | None => None
                  end
              | None =>
                  Some (JArr (xs ++ replicate (n - length xs) JNull
                                 ++ [build rest new]))
              end
          | None => None
          end
      | _ => Some (build (k :: rest) new)
      end
  end.

(** [sjson.SetBytes(json, path, value)].  The second component tells
    whether sjson reports an error; its [set] then returns
    [[]byte(jstr), err], the text it was given.  The handlers drop the
    error and go on with the text. *)
Definition SetBytes (v : json) (p : path) (new : json) : json * bool :=
  match p with
  | [] => (v, true)
  | _ =>
      match set p v new with
      | Some v' => (v', false)
      | None => (v, true)
      end
  end.

(** The value [v] without what stands at path [p]; [None] when there is
    nothing at [p]. *)
Fixpoint del (p : path) (v : json) : option json :=
  match p with
  | [] => None
  | k :: rest =>
      match v with
      | JObj ms =>
          match member k ms with
          | Some sub =>
              match rest with
              | [] => Some (JObj (remove k ms))
              | _ =>
                  match del rest sub with
                  | Some sub' => Some (JObj (update k sub' ms))
                  | None => None
                  end
              end
          | None => None
          end
      | JArr xs =>
          match strconv.atoui k with
          | Some n =>
              match xs !! n with
              | Some sub =>
                  match rest with
                  | [] => Some (JArr (delete n xs))
                  | _ =>
                      match del rest sub with
                      | Some sub' => Some (JArr (<[n := sub']> xs))
                      | None => None
                      end
                  end
              | None => None
              end
          | None => None
          end
      | _ => None
      end
  end.

(** [sjson.DeleteBytes(json, path)]: a path that does not exist is not an
    error, the text comes back unchanged. *)
Definition DeleteBytes (v : json) (p : path) : json * bool :=
  match p with
  | [] => (v, true)
  | _ =>
      match del p v with
      | Some v' => (v', false)
      | None => (v, false)
      end
  end.

End sjson.

(** ** Go values the handlers pass around *)

(** An [error], as far as the handlers look at one: whether
    [errors.Is(err, context.Canceled)] holds, and the text of
    [err.Error()]. *)
Record error := { IsCanceled : bool; ErrorText : string }.

Inductive result (A : Type) : Type :=
| Ok (a : A)
| Err (e : error).
Arguments Ok {A} a.
Arguments Err {A} e.

(** Indexing a slice, [xs[i]]: out of range is a run-time panic, here
    [None]. *)
Definition index {A : Type} (xs : list A) (i : Z) : option A :=
  if i <? 0 then None else xs !! Z.to_nat i.

Module http.

Definition StatusOK : Z := 200.
Definition StatusBadRequest : Z := 400.
Definition StatusRequestTimeout : Z := 408.
Definition StatusInternalServerError : Z := 500.
Definition StatusNoContent : Z := 204.
Definition StatusNotModified : Z := 304.
Definition MethodPost : string := "POST".

(** An outbound [*http.Request]. *)
Record Request := {
  Method : string;
  URL : string;
  Header : gmap string string;
  Body : json
}.

(** [req.Header.Set(key, value)]. *)
Definition HeaderSet (key value : string) (req : Request) : Request :=
  {| Method := Method req; URL := URL req;
     Header := <[key := value]> (Header req); Body := Body req |}.

(** An upstream [*http.Response]: [ContentType] is
    [resp.Header.Get("Content-Type")], empty when the header is missing,
    [RespBody] is all that [resp.Body] yields, and [Close] is what
    [resp.Body.Close()] returns, [None] being nil. *)
Record Response := {
  StatusCode : Z;
  ContentType : string;
  RespBody : string;
  Close : option error
}.

(** [*http.Client], of which only [Do] is used. *)
Record Client := { Do : Request -> result Response }.

End http.

(** ** gin *)

Module gin.

(** The writing half of a [*gin.Context]: the status that will be sent,
    the response headers, the body written so far, whether the header has
    gone out, and whether the handler chain was aborted. *)
Record Context := {
  status : Z;
  header : gmap string string;
  body : string;
  written : bool;
  aborted : bool
}.

(** The context a handler starts from. *)
Definition fresh : Context :=
  {| status := 200; header := ∅; body := EmptyString;
     written := false; aborted := false |}.

(** [c.Status(code)], that is [responseWriter.WriteHeader]: a code that
    is not positive is ignored, and so is any code once the header has
    been written. *)
Definition Status (code : Z) (c : Context) : Context :=
  if (0 <? code) && negb (status c =? code) && negb (written c)
  then {| status := code; header := header c; body := body c;
          written := written c; aborted := aborted c |}
  else c.

(** [c.Header(key, value)]: an empty value removes the header. *)
Definition Header (key value : string) (c : Context) : Context :=
  {| status := status c;
     header := if String.eqb value EmptyString
               then delete key (header c)
               else <[key := value]> (header c);
     body := body c; written := written c; aborted := aborted c |}.

(** [c.Writer.WriteHeaderNow()]. *)
Definition WriteHeaderNow (c : Context) : Context :=
  {| status := status c; header := header c; body := body c;
     written := true; aborted := aborted c |}.

(** [c.Writer.Write(data)]. *)
Definition Write (data : string) (c : Context) : Context :=
  {| status := status c; header := header c; body := body c +:+ data;
     written := true; aborted := aborted c |}.

(** [c.Abort()]. *)
Definition Abort (c : Context) : Context :=
  {| status := status c; header := header c; body := body c;
     written := written c; aborted := true |}.

(** [c.AbortWithStatus(code)]. *)
Definition AbortWithStatus (code : Z) (c : Context) : Context :=
  Abort (WriteHeaderNow (Status code c)).

(** gin's [bodyAllowedForStatus]: the statuses 1xx, 204 and 304 carry no
    body. *)
Definition bodyAllowedForStatus (code : Z) : bool :=
  if (100 <=? code) && (code <=? 199) then false
  else if code =? http.StatusNoContent then false
  else if code =? http.StatusNotModified then false
  else true.

(** The renderer's [writeContentType]: the type is set only when the
    handler has not set one. *)
Definition writeContentType (value : string) (c : Context) : Context :=
  match header c !! "Content-Type" with
  | Some _ => c
  | None =>
      {| status := status c;
         header := <["Content-Type" := value]> (header c);
         body := body c; written := written c; aborted := aborted c |}
  end.

(** [c.String(code, text)] with no format arguments.  It is
    [c.Render(code, render.String{...})], and [Render] sets the status
    and then either renders, which sets the content type if there is
    none and writes the text, or, for a status that allows no body
    ([!bodyAllowedForStatus(code)]), sets the content type, writes the
    header and returns. *)
Definition String (code : Z) (text : string) (c : Context) : Context :=
  let c := Status code c in
  let c := writeContentType "text/plain; charset=utf-8" c in
  if bodyAllowedForStatus code then Write text c else WriteHeaderNow c.

End gin.

Module io.

(** [io.Copy(c.Writer, body)]: nothing is written for an empty body. *)
Definition Copy (data : string) (c : gin.Context) : gin.Context :=
  if String.eqb data EmptyString then c else gin.Write data c.

End io.

Module log.

(** [log.Println(a, b)]: the line logged, the operands a space apart. *)
Definition Println (a b : string) : string := a +:+ " " +:+ b.

End log.

(** ** Configuration and service (main.go) *)

Definition InstructModel : string := "deepseek-coder".

Record config := {
  Bind : string;
  ProxyUrl : string;
  Timeout : Z;
  CodexApiBase : string;
  CodexApiKey : string;
  CodexApiOrganization : string;
  CodexApiProject : string;
  ChatApiBase : string;
  ChatApiKey : string;
  ChatApiOrganization : string;
  ChatApiProject : string;
  ChatModelDefault : string;
  ChatModelMap : gmap string string;
  ChatMaxTokens : Z;
  ChatLocale : string
}.

Record ProxyService := {
  cfg : config;
  client : http.Client
}.

(** What a handler is called with: whether the request's context is
    already done when [codeCompletions] looks at it after its delay, and
    what [io.ReadAll(c.Request.Body)] returns. *)
Record Inbound := {
  ctxDone : bool;
  ReadAll : result json
}.

(** What a handler leaves behind: the response, the lines logged, and the
    request handed to the client, if any. *)
Record Outcome := {
  response : gin.Context;
  logged : list string;
  sent : option http.Request
}.

(** The payload "data: [DONE]\n". *)
Definition DONE : string := "data: [DONE]" +:+ String "010"%char EmptyString.

(** [closeIO(c)], the closer [c] being given by what its [Close] returns:
    an error is logged with [log.Println(err)], which prints
    [err.Error()]. *)
Definition closeIO (Close : option error) : list string :=
  match Close with
  | Some err => [ErrorText err]
  | None => []
  end.

(** [abortCodex(c, status)]. *)
Definition abortCodex (c : gin.Context) (status : Z) : gin.Context :=
  let c := gin.Header "Content-Type" "text/event-stream" c in
  let c := gin.String status DONE c in
  gin.Abort c.

(** ** The body rewriting of [completions] (main.go, lines 190 to 218)

    The handler rewrites the body in four steps, one after the other;
    each is given a name here. *)

Definition LocalePhrase : string := "Respond in the following locale".

(** Lines 190 to 197: the model is looked up in the table and replaced by
    the entry found, or by the default model. *)
Definition mapModel (cfg : config) (body : json) : json :=
  let model := gjson.toString (gjson.Get body ["model"]) in
  let model :=
    match ChatModelMap cfg !! model with
    | Some mapped => mapped
    | None => ChatModelDefault cfg
    end in
  fst (sjson.SetBytes body ["model"] (JStr model)).

(** Lines 200 to 210: the locale instruction goes to the end of the last
    message.  [None] is the panic of [messages[lastIndex]] when there is
    no message. *)
Definition injectLocale (cfg : config) (body : json) : option json :=
  if negb (gjson.Exists (gjson.Get body ["function_call"])) then
    let messages := gjson.Array (gjson.Get body ["messages"]) in
    let lastIndex := Z.of_nat (length messages) - 1 in
    match index messages lastIndex with
    | None => None
    | Some last =>
        let content := gjson.toString (gjson.Get last ["content"]) in
        if negb (strings.Contains content LocalePhrase) then
          let locale := ChatLocale cfg in
          let locale :=
            if String.eqb locale EmptyString then "zh_CN" else locale in
          Some (fst (sjson.SetBytes body
                       ["messages"; strconv.Itoa lastIndex; "content"]
                       (JStr (content +:+ "Respond in the following locale: "
                                      +:+ locale +:+ "."))))
        else Some body
    end
  else Some body.

(** Lines 212 to 214. *)
Definition dropIntent (body : json) : json :=
  let body := fst (sjson.DeleteBytes body ["intent"]) in
  let body := fst (sjson.DeleteBytes body ["intent_threshold"]) in
  fst (sjson.DeleteBytes body ["intent_content"]).

(** Lines 216 to 218.  [ChatMaxTokens] is a Go [int], of 64 bits as the
    int64 that [Result.Int()] returns, so that [int(...)] changes
    nothing. *)
Definition clampMaxTokens (cfg : config) (body : json) : json :=
  if ChatMaxTokens cfg <? gjson.Int (gjson.Get body ["max_tokens"])
  then fst (sjson.SetBytes body ["max_tokens"] (JNum (ChatMaxTokens cfg)))
  else body.

(** The body [completions] sends upstream. *)
Definition chatBody (cfg : config) (body : json) : option json :=
  match injectLocale cfg (mapModel cfg body) with
  | None => None
  | Some body => Some (clampMaxTokens cfg (dropIntent body))
  end.

(** ** The body rewriting of [codeCompletions] (lines 290 to 292) *)

Definition codexBody (body : json) : json :=
  let body := fst (sjson.DeleteBytes body ["extra"]) in
  let body := fst (sjson.DeleteBytes body ["nwo"]) in
  fst (sjson.SetBytes body ["model"] (JStr InstructModel)).

(** ** The handlers *)

Section Handlers.

(** [http.NewRequestWithContext] is called with a live context and the
    method POST, so it fails exactly when the URL does not parse; the
    parser of net/url is a parameter. *)
Variable validURL : string -> bool.

Definition NewRequestWithContext (method url : string) (body : json)
  : result http.Request :=
  if validURL url
  then Ok {| http.Method := method; http.URL := url;
             http.Header := ∅; http.Body := body |}
  else Err {| IsCanceled := false; ErrorText := "invalid URL" |}.

(** The headers both handlers put on the outbound request. *)
Definition setHeaders (key organization project : string)
  (req : http.Request) : http.Request :=
  let req := http.HeaderSet "Content-Type" "application/json" req in
  let req := http.HeaderSet "Authorization" ("Bearer " +:+ key) req in
  let req :=
    if negb (String.eqb organization EmptyString)
    then http.HeaderSet "OpenAI-Organization" organization req else req in
  if negb (String.eqb project EmptyString)
  then http.HeaderSet "OpenAI-Project" project req else req.

(** Status, content type and body of the upstream answer go to the
    caller (lines 260 to 267 and 335 to 342). *)
Definition relay (resp : http.Response) (c : gin.Context) : gin.Context :=
  let c := gin.Status (http.StatusCode resp) c in
  let contentType := http.ContentType resp in
  let c :=
    if negb (String.eqb contentType EmptyString)
    then gin.Header "Content-Type" contentType c else c in
  io.Copy (http.RespBody resp) c.

(** [completions]; [None] is the run-time panic of [chatBody].  Once
    the upstream has answered, [closeIO(resp.Body)] is deferred: it runs
    when the handler returns, on the body the upstream gave, so what it
    logs comes after the handler's own line. *)
Definition completions (s : ProxyService) (c : gin.Context) (rq : Inbound)
  : option Outcome :=
  match ReadAll rq with
  | Err _ =>
      Some {| response := gin.AbortWithStatus http.StatusBadRequest c;
              logged := []; sent := None |}
  | Ok body =>
      match chatBody (cfg s) body with
      | None => None
      | Some body =>
          let proxyUrl := ChatApiBase (cfg s) +:+ "/chat/completions" in
          match NewRequestWithContext http.MethodPost proxyUrl body with
          | Err _ =>
              Some {| response :=
                        gin.AbortWithStatus http.StatusInternalServerError c;
                      logged := []; sent := None |}
          | Ok req =>
              let req :=
                setHeaders (ChatApiKey (cfg s)) (ChatApiOrganization (cfg s))
                  (ChatApiProject (cfg s)) req in
              match http.Do (client s) req with
              | Err err =>
                  if IsCanceled err then
                    Some {| response :=
                              gin.AbortWithStatus http.StatusRequestTimeout c;
                            logged := []; sent := Some req |}
                  else
                    Some {| response :=
                              gin.AbortWithStatus
                                http.StatusInternalServerError c;
                            logged := [log.Println "request conversation failed:"
                                         (ErrorText err)];
                            sent := Some req |}
              | Ok resp =>
                  let log :=
                    if negb (http.StatusCode resp =? http.StatusOK)
                    then [log.Println "request completions failed:"
                            (http.RespBody resp)]
                    else [] in
                  Some {| response := relay resp c;
                          logged := log ++ closeIO (http.Close resp);
                          sent := Some req |}
              end
          end
      end
  end.

(** [codeCompletions].  The delay of 100 ms it starts with shows only
    in [ctxDone], the state of the context once the delay is over.
    [closeIO(resp.Body)] is deferred as in [completions]. *)
Definition codeCompletions (s : ProxyService) (c : gin.Context)
  (rq : Inbound) : Outcome :=
  if ctxDone rq then
    {| response := abortCodex c http.StatusRequestTimeout;
       logged := []; sent := None |}
  else
    match ReadAll rq with
    | Err _ =>
        {| response := abortCodex c http.StatusBadRequest;
           logged := []; sent := None |}
    | Ok body =>
        let body := codexBody body in
        let proxyUrl := CodexApiBase (cfg s) +:+ "/chat/completions" in
        match NewRequestWithContext http.MethodPost proxyUrl body with
        | Err _ =>
            {| response := abortCodex c http.StatusInternalServerError;
               logged := []; sent := None |}
        | Ok req =>
            let req :=
              setHeaders (CodexApiKey (cfg s)) (CodexApiOrganization (cfg s))
                (CodexApiProject (cfg s)) req in
            match http.Do (client s) req with
            | Err err =>
                if IsCanceled err then
                  {| response := abortCodex c http.StatusRequestTimeout;
                     logged := []; sent := Some req |}
                else
                  {| response := abortCodex c http.StatusInternalServerError;
                     logged := [log.Println "request completions failed:"
                                  (ErrorText err)];
                     sent := Some req |}
            | Ok resp =>
                if negb (http.StatusCode resp =? http.StatusOK) then
                  {| response := abortCodex c (http.StatusCode resp);
                     logged := [log.Println "request completions failed:"
                                  (http.RespBody resp)]
                               ++ closeIO (http.Close resp);
                     sent := Some req |}
                else
                  {| response := relay resp c;
                     logged := closeIO (http.Close resp);
                     sent := Some req |}
            end
        end
    end.

End Handlers.


(** ** Notions used in the statements *)

(** How many members of the document are called [k]; a document that is
    not an object has none. *)
Definition memberCount (k : string) (v : json) : nat :=
  match v with
  | JObj ms => occurrences k ms
  | _ => O
  end.




(** ** Sample configurations, documents and exchanges *)

Definition sampleConfig (models : gmap string string) (maxTokens : Z)
  (locale : string) : config :=
  {| Bind := "127.0.0.1:8181"; ProxyUrl := EmptyString; Timeout := 600;
     CodexApiBase := "https://api.deepseek.com/beta";
     CodexApiKey := "sk-codex";
     CodexApiOrganization := EmptyString; CodexApiProject := EmptyString;
     ChatApiBase := "https://api.deepseek.com/v1";
     ChatApiKey := "sk-chat";
     ChatApiOrganization := EmptyString; ChatApiProject := EmptyString;
     ChatModelDefault := "deepseek-coder";
     ChatModelMap := models;
     ChatMaxTokens := maxTokens;
     ChatLocale := locale |}.

(** {"model":"gpt-4","messages":[{"content":"hi"}]} *)
Definition helloDoc : json :=
  JObj [("model", JStr "gpt-4");
        ("messages", JArr [JObj [("content", JStr "hi")]])].

(** What [helloDoc] becomes with no table, the default model
    deepseek-coder and no locale configured:
    {"model":"deepseek-coder","messages":[{"content":
    "hiRespond in the following locale: zh_CN."}]} *)
Definition helloOut : json :=
  JObj [("model", JStr "deepseek-coder");
        ("messages",
         JArr [JObj [("content",
                      JStr "hiRespond in the following locale: zh_CN.")]])].

(** {"messages":[{"content":"hi"}],"max_tokens":99999} *)
Definition greedyDoc : json :=
  JObj [("messages", JArr [JObj [("content", JStr "hi")]]);
        ("max_tokens", JNum 99999)].



(** {"messages":[{"content":"hi"}]} *)
Definition plainDoc : json :=
  JObj [("messages", JArr [JObj [("content", JStr "hi")]])].

(** {"intent":true,"intent":false,"messages":[{"content":"hi"}]} *)
Definition twiceIntentDoc : json :=
  JObj [("intent", JBool true); ("intent", JBool false);
        ("messages", JArr [JObj [("content", JStr "hi")]])].

(** {"intent":true,"intent_threshold":0,"intent_content":"x",
     "messages":[{"content":"hi"}]} *)
Definition intentDoc : json :=
  JObj [("intent", JBool true); ("intent_threshold", JNum 0);
        ("intent_content", JStr "x");
        ("messages", JArr [JObj [("content", JStr "hi")]])].

(** {"function_call":{},"messages":[]} *)
Definition callDoc : json :=
  JObj [("function_call", JObj []); ("messages", JArr [])].

(** {"messages":[]} *)
Definition emptyDoc : json := JObj [("messages", JArr [])].

(** {"prompt":"x","extra":{},"nwo":"a/b","model":"copilot"} *)
Definition codexDoc : list (string * json) :=
  [("prompt", JStr "x"); ("extra", JObj []); ("nwo", JStr "a/b");
   ("model", JStr "copilot")].


(** A proxy whose upstream answers every request the same way. *)
Definition sampleService (cfg : config) (answer : result http.Response)
  : ProxyService :=
  {| cfg := cfg; client := {| http.Do := fun _ => answer |} |}.

(** An upstream answer whose body closes without an error. *)
Definition sampleResponse (code : Z) : http.Response :=
  {| http.StatusCode := code;
     http.ContentType := "application/json";
     http.RespBody := "{}";
     http.Close := None |}.

(** The same answer from an upstream whose body fails to close. *)
Definition brokenResponse (code : Z) : http.Response :=
  {| http.StatusCode := code;
     http.ContentType := "application/json";
     http.RespBody := "{}";
     http.Close := Some {| IsCanceled := false;
                           ErrorText := "close: broken pipe" |} |}.

(** A request whose body reads as [body], from a caller still there. *)
Definition arrives (body : json) : Inbound :=
  {| ctxDone := false; ReadAll := Ok body |}.

(** A caller that has gone by the time [codeCompletions] looks. *)
Definition gone : Inbound :=
  {| ctxDone := true; ReadAll := Ok (JObj []) |}.

(** Every URL parses, respectively none does. *)
Definition anyURL : string -> bool := fun _ => true.
Definition noURL : string -> bool := fun _ => false.

Definition canceled : error :=
  {| IsCanceled := true; ErrorText := "context canceled" |}.

Definition refused : error :=
  {| IsCanceled := false; ErrorText := "connection refused" |}.

Definition unreadable : error :=
  {| IsCanceled := false; ErrorText := "unexpected EOF" |}.

(** ** Loading the configuration ([readConfig], lines 47 to 99) *)

(** [strings.ToUpper], on the ASCII letters that the json tags are made
    of. *)
Definition upper (c : ascii) : ascii :=
  let n := nat_of_ascii c in
  if (97 <=? n)%nat && (n <=? 122)%nat then ascii_of_nat (n - 32) else c.

Fixpoint ToUpper (s : string) : string :=
  match s with
  | EmptyString => EmptyString
  | String c s' => String (upper c) (ToUpper s')
  end.

(** [strconv.ParseInt(s, 10, 64)]: an optional sign, then digits and
    nothing else, at least one, denoting an integer that fits 64 bits;
    [None] is any error. *)
Definition ParseInt (s : string) : option Z :=
  match s with
  | EmptyString => None
  | String c rest =>
      let neg := Ascii.eqb c "-"%char in
      let ds :=
        if Ascii.eqb c "+"%char || Ascii.eqb c "-"%char then rest else s in
      match ds with
      | EmptyString => None
      | _ =>
          match strconv.digits ds 0 with
          | None => None
          | Some un =>
              if neg
              then (if un <=? 2 ^ 63 then Some (- un) else None)
              else (if un <? 2 ^ 63 then Some un else None)
          end
      end
  end.

(** The assignments [field.SetString] and [field.SetInt] can make, one
    for each field of [config] of that kind. *)
Definition setBind (v : string) (c : config) : config :=
  {| Bind := v;
     ProxyUrl := ProxyUrl c;
     Timeout := Timeout c;
     CodexApiBase := CodexApiBase c;
     CodexApiKey := CodexApiKey c;
     CodexApiOrganization := CodexApiOrganization c;
     CodexApiProject := CodexApiProject c;
     ChatApiBase := ChatApiBase c;
     ChatApiKey := ChatApiKey c;
     ChatApiOrganization := ChatApiOrganization c;
     ChatApiProject := ChatApiProject c;
     ChatModelDefault := ChatModelDefault c;
     ChatModelMap := ChatModelMap c;
     ChatMaxTokens := ChatMaxTokens c;
     ChatLocale := ChatLocale c |}.

Definition setProxyUrl (v : string) (c : config) : config :=
  {| Bind := Bind c;
     ProxyUrl := v;
     Timeout := Timeout c;
     CodexApiBase := CodexApiBase c;
     CodexApiKey := CodexApiKey c;
     CodexApiOrganization := CodexApiOrganization c;
     CodexApiProject := CodexApiProject c;
     ChatApiBase := ChatApiBase c;
     ChatApiKey := ChatApiKey c;
     ChatApiOrganization := ChatApiOrganization c;
     ChatApiProject := ChatApiProject c;
     ChatModelDefault := ChatModelDefault c;
     ChatModelMap := ChatModelMap c;
     ChatMaxTokens := ChatMaxTokens c;
     ChatLocale := ChatLocale c |}.

Definition setTimeout (v : Z) (c : config) : config :=
  {| Bind := Bind c;
     ProxyUrl := ProxyUrl c;
     Timeout := v;
     CodexApiBase := CodexApiBase c;
     CodexApiKey := CodexApiKey c;
     CodexApiOrganization := CodexApiOrganization c;
     CodexApiProject := CodexApiProject c;
     ChatApiBase := ChatApiBase c;
     ChatApiKey := ChatApiKey c;
     ChatApiOrganization := ChatApiOrganization c;
     ChatApiProject := ChatApiProject c;
     ChatModelDefault := ChatModelDefault c;
     ChatModelMap := ChatModelMap c;
     ChatMaxTokens := ChatMaxTokens c;
     ChatLocale := ChatLocale c |}.

Definition setCodexApiBase (v : string) (c : config) : config :=
  {| Bind := Bind c;
     ProxyUrl := ProxyUrl c;
     Timeout := Timeout c;
     CodexApiBase := v;
     CodexApiKey := CodexApiKey c;
     CodexApiOrganization := CodexApiOrganization c;
     CodexApiProject := CodexApiProject c;
     ChatApiBase := ChatApiBase c;
     ChatApiKey := ChatApiKey c;
     ChatApiOrganization := ChatApiOrganization c;
     ChatApiProject := ChatApiProject c;
     ChatModelDefault := ChatModelDefault c;
     ChatModelMap := ChatModelMap c;
     ChatMaxTokens := ChatMaxTokens c;
     ChatLocale := ChatLocale c |}.

Definition setCodexApiKey (v : string) (c : config) : config :=
  {| Bind := Bind c;
     ProxyUrl := ProxyUrl c;
     Timeout := Timeout c;
     CodexApiBase := CodexApiBase c;
     CodexApiKey := v;
     CodexApiOrganization := CodexApiOrganization c;
     CodexApiProject := CodexApiProject c;
     ChatApiBase := ChatApiBase c;
     ChatApiKey := ChatApiKey c;
     ChatApiOrganization := ChatApiOrganization c;
     ChatApiProject := ChatApiProject c;
     ChatModelDefault := ChatModelDefault c;
     ChatModelMap := ChatModelMap c;
     ChatMaxTokens := ChatMaxTokens c;
     ChatLocale := ChatLocale c |}.

Definition setCodexApiOrganization (v : string) (c : config) : config :=
  {| Bind := Bind c;
     ProxyUrl := ProxyUrl c;
     Timeout := Timeout c;
     CodexApiBase := CodexApiBase c;
     CodexApiKey := CodexApiKey c;
     CodexApiOrganization := v;
     CodexApiProject := CodexApiProject c;
     ChatApiBase := ChatApiBase c;
     ChatApiKey := ChatApiKey c;
     ChatApiOrganization := ChatApiOrganization c;
     ChatApiProject := ChatApiProject c;
     ChatModelDefault := ChatModelDefault c;
     ChatModelMap := ChatModelMap c;
     ChatMaxTokens := ChatMaxTokens c;
     ChatLocale := ChatLocale c |}.

Definition setCodexApiProject (v : string) (c : config) : config :=
  {| Bind := Bind c;
     ProxyUrl := ProxyUrl c;
     Timeout := Timeout c;
     CodexApiBase := CodexApiBase c;
     CodexApiKey := CodexApiKey c;
     CodexApiOrganization := CodexApiOrganization c;
     CodexApiProject := v;
     ChatApiBase := ChatApiBase c;
     ChatApiKey := ChatApiKey c;
     ChatApiOrganization := ChatApiOrganization c;
     ChatApiProject := ChatApiProject c;
     ChatModelDefault := ChatModelDefault c;
     ChatModelMap := ChatModelMap c;
     ChatMaxTokens := ChatMaxTokens c;
     ChatLocale := ChatLocale c |}.

Definition setChatApiBase (v : string) (c : config) : config :=
  {| Bind := Bind c;
     ProxyUrl := ProxyUrl c;
     Timeout := Timeout c;
     CodexApiBase := CodexApiBase c;
     CodexApiKey := CodexApiKey c;
     CodexApiOrganization := CodexApiOrganization c;
     CodexApiProject := CodexApiProject c;
     ChatApiBase := v;
     ChatApiKey := ChatApiKey c;
     ChatApiOrganization := ChatApiOrganization c;
     ChatApiProject := ChatApiProject c;
     ChatModelDefault := ChatModelDefault c;
     ChatModelMap := ChatModelMap c;
     ChatMaxTokens := ChatMaxTokens c;
     ChatLocale := ChatLocale c |}.

Definition setChatApiKey (v : string) (c : config) : config :=
  {| Bind := Bind c;
     ProxyUrl := ProxyUrl c;
     Timeout := Timeout c;
     CodexApiBase := CodexApiBase c;
     CodexApiKey := CodexApiKey c;
     CodexApiOrganization := CodexApiOrganization c;
     CodexApiProject := CodexApiProject c;
     ChatApiBase := ChatApiBase c;
     ChatApiKey := v;
     ChatApiOrganization := ChatApiOrganization c;
     ChatApiProject := ChatApiProject c;
     ChatModelDefault := ChatModelDefault c;
     ChatModelMap := ChatModelMap c;
     ChatMaxTokens := ChatMaxTokens c;
     ChatLocale := ChatLocale c |}.

Definition setChatApiOrganization (v : string) (c : config) : config :=
  {| Bind := Bind c;
     ProxyUrl := ProxyUrl c;
     Timeout := Timeout c;
     CodexApiBase := CodexApiBase c;
     CodexApiKey := CodexApiKey c;
     CodexApiOrganization := CodexApiOrganization c;
     CodexApiProject := CodexApiProject c;
     ChatApiBase := ChatApiBase c;
     ChatApiKey := ChatApiKey c;
     ChatApiOrganization := v;
     ChatApiProject := ChatApiProject c;
     ChatModelDefault := ChatModelDefault c;
     ChatModelMap := ChatModelMap c;
     ChatMaxTokens := ChatMaxTokens c;
     ChatLocale := ChatLocale c |}.

Definition setChatApiProject (v : string) (c : config) : config :=
  {| Bind := Bind c;
     ProxyUrl := ProxyUrl c;
     Timeout := Timeout c;
     CodexApiBase := CodexApiBase c;
     CodexApiKey := CodexApiKey c;
     CodexApiOrganization := CodexApiOrganization c;
     CodexApiProject := CodexApiProject c;
     ChatApiBase := ChatApiBase c;
     ChatApiKey := ChatApiKey c;
     ChatApiOrganization := ChatApiOrganization c;
     ChatApiProject := v;
     ChatModelDefault := ChatModelDefault c;
     ChatModelMap := ChatModelMap c;
     ChatMaxTokens := ChatMaxTokens c;
     ChatLocale := ChatLocale c |}.

Definition setChatModelDefault (v : string) (c : config) : config :=
  {| Bind := Bind c;
     ProxyUrl := ProxyUrl c;
     Timeout := Timeout c;
     CodexApiBase := CodexApiBase c;
     CodexApiKey := CodexApiKey c;
     CodexApiOrganization := CodexApiOrganization c;
     CodexApiProject := CodexApiProject c;
     ChatApiBase := ChatApiBase c;
     ChatApiKey := ChatApiKey c;
     ChatApiOrganization := ChatApiOrganization c;
     ChatApiProject := ChatApiProject c;
     ChatModelDefault := v;
     ChatModelMap := ChatModelMap c;
     ChatMaxTokens := ChatMaxTokens c;
     ChatLocale := ChatLocale c |}.

Definition setChatMaxTokens (v : Z) (c : config) : config :=
  {| Bind := Bind c;
     ProxyUrl := ProxyUrl c;
     Timeout := Timeout c;
     CodexApiBase := CodexApiBase c;
     CodexApiKey := CodexApiKey c;
     CodexApiOrganization := CodexApiOrganization c;
     CodexApiProject := CodexApiProject c;
     ChatApiBase := ChatApiBase c;
     ChatApiKey := ChatApiKey c;
     ChatApiOrganization := ChatApiOrganization c;
     ChatApiProject := ChatApiProject c;
     ChatModelDefault := ChatModelDefault c;
     ChatModelMap := ChatModelMap c;
     ChatMaxTokens := v;
     ChatLocale := ChatLocale c |}.

Definition setChatLocale (v : string) (c : config) : config :=
  {| Bind := Bind c;
     ProxyUrl := ProxyUrl c;
     Timeout := Timeout c;
     CodexApiBase := CodexApiBase c;
     CodexApiKey := CodexApiKey c;
     CodexApiOrganization := CodexApiOrganization c;
     CodexApiProject := CodexApiProject c;
     ChatApiBase := ChatApiBase c;
     ChatApiKey := ChatApiKey c;
     ChatApiOrganization := ChatApiOrganization c;
     ChatApiProject := ChatApiProject c;
     ChatModelDefault := ChatModelDefault c;
     ChatModelMap := ChatModelMap c;
     ChatMaxTokens := ChatMaxTokens c;
     ChatLocale := v |}.

(** A field of the struct as the loop of [readConfig] sees it: its json
    tag, its kind, and how it is assigned. *)
Inductive StructField : Type :=
| StringField (tag : string) (SetString : string -> config -> config)
| IntField (tag : string) (SetInt : Z -> config -> config)
| MapField (tag : string).

Definition Tag (f : StructField) : string :=
  match f with
  | StringField tag _ => tag
  | IntField tag _ => tag
  | MapField tag => tag
  end.

(** The fields of [config], in the order of the declaration. *)
Definition configFields : list StructField :=
  [StringField "bind" setBind;
   StringField "proxy_url" setProxyUrl;
   IntField "timeout" setTimeout;
   StringField "codex_api_base" setCodexApiBase;
   StringField "codex_api_key" setCodexApiKey;
   StringField "codex_api_organization" setCodexApiOrganization;
   StringField "codex_api_project" setCodexApiProject;
   StringField "chat_api_base" setChatApiBase;
   StringField "chat_api_key" setChatApiKey;
   StringField "chat_api_organization" setChatApiOrganization;
   StringField "chat_api_project" setChatApiProject;
   StringField "chat_model_default" setChatModelDefault;
   MapField "chat_model_map";
   IntField "chat_max_tokens" setChatMaxTokens;
   StringField "chat_locale" setChatLocale].

(** One turn of the loop (lines 65 to 95).  A field without tag is
    passed over, and so is one whose variable is not set.  A string
    takes the value as it is; an integer takes it when it parses; no
    case of the switch is for a map. *)
Definition overrideField (LookupEnv : string -> option string)
  (c : config) (f : StructField) : config :=
  let tag := Tag f in
  if String.eqb tag EmptyString then c
  else
    match LookupEnv ("OVERRIDE_" +:+ ToUpper tag) with
    | None => c
    | Some value =>
        match f with
        | StringField _ SetString => SetString value c
        | IntField _ SetInt =>
            match ParseInt value with
            | Some intValue => SetInt intValue c
            | None => c
            end
        | MapField _ => c
        end
    end.

(** The loop. *)
Definition overrideFields (LookupEnv : string -> option string)
  (c : config) : config :=
  fold_left (overrideField LookupEnv) configFields c.

(** The field [f] is never assigned in a way that shows through
    [proj]. *)
Definition keeps {A : Type} (proj : config -> A) (f : StructField) : Prop :=
  match f with
  | StringField _ SetString => forall v c, proj (SetString v c) = proj c
  | IntField _ SetInt => forall n c, proj (SetInt n c) = proj c
  | MapField _ => True
  end.

(** How [readConfig] ends: with [log.Fatal], with a panic, or with a
    configuration. *)
Inductive Loaded : Type :=
| Fatal (e : error)
| Panic
| Config (c : config).

(** [readConfig].  [ReadFile] is [os.ReadFile], [LookupEnv] is
    [os.LookupEnv], and [Unmarshal] is [json.Unmarshal] into [&_cfg],
    the address of a pointer: the literal null makes that pointer nil,
    here [None], and [v.Type()] then panics. *)
Definition readConfig (ReadFile : string -> result string)
  (Unmarshal : string -> result (option config))
  (LookupEnv : string -> option string) : Loaded :=
  match ReadFile "config.json" with
  | Err e => Fatal e
  | Ok content =>
      match Unmarshal content with
      | Err e => Fatal e
      | Ok None => Panic
      | Ok (Some _cfg) => Config (overrideFields LookupEnv _cfg)
      end
  end.

(** ** The client ([getClient], [NewProxyService], lines 102 to 169) *)


Module time.

(** A [time.Duration], in nanoseconds. *)
Definition Second : Z := 1000000000.

(** The product of two durations, an [int64]. *)
Definition mul (a b : Z) : Z := wrap64 (a * b).

End time.

(** A parsed [*url.URL]. *)
Record URL := { URLText : string }.

(** The [*http.Transport] that [getClient] makes. *)
Record Transport := {
  ForceAttemptHTTP2 : bool;
  DisableKeepAlives : bool;
  Proxy : option URL
}.

(** The settings of the [*http.Client] that [getClient] makes. *)
Record ClientSettings := {
  ClientTransport : Transport;
  ClientTimeout : Z
}.

(** Whether a client with this timeout gives up on a request at some
    point: net/http sets a deadline only for a timeout above zero. *)
Definition hasDeadline (settings : ClientSettings) : bool :=
  0 <? ClientTimeout settings.

Section Client.

(** [http2.ConfigureTransport], [url.Parse], and the exchange that a
    client with given settings has with the upstream are parameters. *)
Variable ConfigureTransport : Transport -> option error.
Variable Parse : string -> result URL.
Variable roundTrip : ClientSettings -> http.Request -> result http.Response.

(** [getClient]. *)
Definition getClient (cfg : config) : result ClientSettings :=
  let transport :=
    {| ForceAttemptHTTP2 := true; DisableKeepAlives := false;
       Proxy := None |} in
  match ConfigureTransport transport with
  | Some err => Err err
  | None =>
      let proxied :=
        if negb (String.eqb (ProxyUrl cfg) EmptyString) then
          match Parse (ProxyUrl cfg) with
          | Err err => Err err
          | Ok proxyUrl =>
              Ok {| ForceAttemptHTTP2 := ForceAttemptHTTP2 transport;
                    DisableKeepAlives := DisableKeepAlives transport;
                    Proxy := Some proxyUrl |}
          end
        else Ok transport in
      match proxied with
      | Err err => Err err
      | Ok transport =>
          Ok {| ClientTransport := transport;
                ClientTimeout := time.mul (Timeout cfg) time.Second |}
      end
  end.

(** [NewProxyService]. *)
Definition NewProxyService (cfg : config) : result ProxyService :=
  match getClient cfg with
  | Err err => Err err
  | Ok client =>
      Ok {| cfg := cfg; client := {| http.Do := roundTrip client |} |}
  end.

End Client.

(** ** More samples *)

(** {"model":"gpt-4","stream":true,"temperature":0,
     "messages":[{"content":"hi"}]} *)
Definition streamDoc : json :=
  JObj [("model", JStr "gpt-4"); ("stream", JBool true);
        ("temperature", JNum 0);
        ("messages", JArr [JObj [("content", JStr "hi")]])].


(** The variables that stand for the string fields, and the fields. *)
Definition stringVariables : list (string * (config -> string)) :=
  [("OVERRIDE_BIND", Bind);
   ("OVERRIDE_PROXY_URL", ProxyUrl);
   ("OVERRIDE_CODEX_API_BASE", CodexApiBase);
   ("OVERRIDE_CODEX_API_KEY", CodexApiKey);
   ("OVERRIDE_CODEX_API_ORGANIZATION", CodexApiOrganization);
   ("OVERRIDE_CODEX_API_PROJECT", CodexApiProject);
   ("OVERRIDE_CHAT_API_BASE", ChatApiBase);
   ("OVERRIDE_CHAT_API_KEY", ChatApiKey);
   ("OVERRIDE_CHAT_API_ORGANIZATION", ChatApiOrganization);
   ("OVERRIDE_CHAT_API_PROJECT", ChatApiProject);
   ("OVERRIDE_CHAT_MODEL_DEFAULT", ChatModelDefault);
   ("OVERRIDE_CHAT_LOCALE", ChatLocale)].

(** The variables that stand for the integer fields, and the fields. *)
Definition intVariables : list (string * (config -> Z)) :=
  [("OVERRIDE_TIMEOUT", Timeout);
   ("OVERRIDE_CHAT_MAX_TOKENS", ChatMaxTokens)].

(** A configuration file that reads and decodes. *)
Definition sampleFile (name : string) : result string :=
  if String.eqb name "config.json" then Ok "{}" else Err unreadable.

Definition sampleDecode (cfg : config) (content : string)
  : result (option config) :=
  Ok (Some cfg).

(** What the chat handler sends for [helloDoc], and the codex handler
    for [codexDoc], with [sampleConfig]. *)
Definition helloRequest : http.Request :=
  {| http.Method := "POST";
     http.URL := "https://api.deepseek.com/v1/chat/completions";
     http.Header := {["Content-Type" := "application/json";
                      "Authorization" := "Bearer sk-chat"]};
     http.Body := helloOut |}.

Definition codexRequest : http.Request :=
  {| http.Method := "POST";
     http.URL := "https://api.deepseek.com/beta/chat/completions";
     http.Header := {["Content-Type" := "application/json";
                      "Authorization" := "Bearer sk-codex"]};
     http.Body := JObj [("prompt", JStr "x");
                        ("model", JStr "deepseek-coder")] |}.

(** An environment with three variables set. *)
Definition sampleEnv (name : string) : option string :=
  if String.eqb name "OVERRIDE_CHAT_LOCALE" then Some EmptyString
  else if String.eqb name "OVERRIDE_CHAT_MAX_TOKENS" then Some "8192"
  else if String.eqb name "OVERRIDE_TIMEOUT" then Some "10s"
  else None.

(** * Properties *)

(** ** Numerals *)


(** ** 64-bit integers *)

Lemma wrap64_small (n : Z) : - 2 ^ 63 <= n < 2 ^ 63 -> wrap64 n = n.
Proof. intros Hn. unfold wrap64. rewrite Z.mod_small; lia. Qed.

Lemma wrap64_range (n : Z) : - 2 ^ 63 <= wrap64 n < 2 ^ 63.
Proof.
  unfold wrap64. pose proof (Z.mod_pos_bound (n + 2 ^ 63) (2 ^ 64)). lia.
Qed.

Lemma wrap64_eq (a b k : Z) : a = b + k * 2 ^ 64 -> wrap64 a = wrap64 b.
Proof.
  intros ->. unfold wrap64.
  replace (b + k * 2 ^ 64 + 2 ^ 63) with (b + 2 ^ 63 + k * 2 ^ 64) by lia.
  by rewrite Z_mod_plus_full.
Qed.

Lemma wrap64_unfold (a : Z) : exists k, wrap64 a = a + k * 2 ^ 64.
Proof.
  exists (- ((a + 2 ^ 63) / 2 ^ 64)). unfold wrap64.
  rewrite Z.mod_eq by lia. lia.
Qed.

Lemma wrap64_step (a d : Z) : wrap64 (wrap64 a * 10 + d) = wrap64 (a * 10 + d).
Proof.
  destruct (wrap64_unfold a) as [k ->].
  apply (wrap64_eq _ _ (k * 10)). lia.
Qed.

Lemma wrap64_opp (a : Z) : wrap64 (wrap64 a * -1) = wrap64 (- a).
Proof.
  destruct (wrap64_unfold a) as [k ->].
  apply (wrap64_eq _ _ (- k)). lia.
Qed.

(** ** [parseInt] on the numerals that [Itoa] prints *)

Lemma parseDigits_acc (d : Decimal.uint) (acc : positive) :
  gjson.parseDigits (NilEmpty.string_of_uint d) (wrap64 (Z.pos acc))
  = (wrap64 (Z.pos (Pos.of_uint_acc d acc)), true).
Proof.
  revert acc. induction d as [|d IH|d IH|d IH|d IH|d IH|d IH|d IH|d IH|d IH|d IH];
    intros acc; [reflexivity|..];
    cbn [NilEmpty.string_of_uint gjson.parseDigits Pos.of_uint_acc];
    match goal with
    | |- context [strconv.digit ?c] =>
        let d := eval vm_compute in (strconv.digit c) in
        change (strconv.digit c) with d
    end;
    cbv beta iota; rewrite wrap64_step;
    match goal with
    | |- gjson.parseDigits _ (wrap64 ?x) = (wrap64 (Z.pos (Pos.of_uint_acc _ ?p)), _) =>
        replace x with (Z.pos p) by lia
    end; apply IH.
Qed.

Lemma parseDigits_uint (d : Decimal.uint) :
  gjson.parseDigits (NilEmpty.string_of_uint d) 0
  = (wrap64 (Z.of_N (Pos.of_uint d)), true).
Proof.
  induction d as [|d IH|d IH|d IH|d IH|d IH|d IH|d IH|d IH|d IH|d IH];
    [reflexivity|exact IH|..];
    cbn [NilEmpty.string_of_uint gjson.parseDigits Pos.of_uint Z.of_N];
    match goal with
    | |- context [strconv.digit ?c] =>
        let d := eval vm_compute in (strconv.digit c) in
        change (strconv.digit c) with d
    end;
    cbv beta iota;
    match goal with
    | |- gjson.parseDigits _ (wrap64 ?x) = (wrap64 (Z.pos (Pos.of_uint_acc _ ?p)), _) =>
        change x with (Z.pos p)
    end; apply parseDigits_acc.
Qed.

Lemma parseInt_Itoa (n : Z) :
  gjson.parseInt (strconv.Itoa n) = (wrap64 n, true).
Proof.
  unfold strconv.Itoa. destruct n as [|p|p]; [reflexivity|..];
    cbn [Z.to_int NilZero.string_of_int];
    pose proof (DecimalPos.Unsigned.to_uint_nonnil p) as Hnil;
    pose proof (parseDigits_uint (Pos.to_uint p)) as Hp;
    rewrite DecimalPos.Unsigned.of_to in Hp; cbn [Z.of_N] in Hp.
  - unfold NilZero.string_of_uint.
    destruct (Pos.to_uint p) eqn:Hd; [done|..]; exact Hp.
  - unfold NilZero.string_of_uint.
    destruct (Pos.to_uint p) eqn:Hd; [done|..];
      cbn [gjson.parseInt NilEmpty.string_of_uint] in *;
      change (Ascii.eqb "-" "-") with true; cbv iota;
      rewrite Hp; cbv iota beta; by rewrite wrap64_opp.
Qed.

(** What [Result.Int()] makes of an integer written out in digits. *)
Lemma Int_JNum (n : Z) : gjson.Int (Some (JNum n)) = wrap64 n.
Proof.
  cbn [gjson.Int]. unfold gjson.maxSafeInteger.
  destruct (_ && _) eqn:Hsafe.
  - symmetry. apply wrap64_small. lia.
  - by rewrite parseInt_Itoa.
Qed.

(** The readings of [Result.Int()] at and beyond the ends of an int64,
    and of a number with a fraction. *)
Example Int_samples :
  gjson.Int (Some (JNum 4096)) = 4096 /\
  gjson.Int (Some (JNum 9223372036854775807)) = 9223372036854775807 /\
  gjson.Int (Some (JNum 9223372036854775808)) = - 9223372036854775808 /\
  gjson.Int (Some (JNum (- 9223372036854775809))) = 9223372036854775807 /\
  gjson.Int (Some (JStr "9223372036854775808")) = - 9223372036854775808 /\
  gjson.Int (Some (JStr "12a")) = 0 /\
  gjson.Int (Some (JFloat "4096.5" 4096.5)) = 4096 /\
  gjson.Int (Some (JFloat "-4096.5" (-4096.5))) = - 4096 /\
  gjson.Int (Some (JFloat "1e3" 1000)) = 1000.
Proof. vm_compute. repeat split. Qed.

(** ** Substrings *)





(** ** Members of an object *)

Section Members.

Implicit Types (k : string) (x : json) (ms : list (string * json)).

Lemma member_update_ne k k' x ms :
  k <> k' -> member k (update k' x ms) = member k ms.
Proof.
  intros Hne. induction ms as [|[k0 y] ms IH]; [done|]. cbn.
  destruct (String.eqb_spec k' k0) as [->|Hk0]; cbn.
  - by destruct (String.eqb_spec k k0).
  - by rewrite IH.
Qed.

Lemma member_update_eq k x ms :
  is_Some (member k ms) -> member k (update k x ms) = Some x.
Proof.
  induction ms as [|[k0 y] ms IH]; cbn; [by intros [? ?]|].
  destruct (String.eqb_spec k k0) as [->|Hk0]; cbn.
  - by rewrite String.eqb_refl.
  - intros H. destruct (String.eqb_spec k k0); [done|]. by apply IH.
Qed.

Lemma update_id k x ms : member k ms = Some x -> update k x ms = ms.
Proof.
  induction ms as [|[k0 y] ms IH]; cbn; [done|].
  destruct (String.eqb_spec k k0) as [->|Hk0].
  - by intros [= ->].
  - intros H. by rewrite IH.
Qed.

Lemma member_snoc_ne k k' x ms :
  k <> k' -> member k (ms ++ [(k', x)]) = member k ms.
Proof.
  intros Hne. induction ms as [|[k0 y] ms IH]; cbn.
  - by destruct (String.eqb_spec k k').
  - by rewrite IH.
Qed.

Lemma member_snoc_eq k x ms :
  member k ms = None -> member k (ms ++ [(k, x)]) = Some x.
Proof.
  induction ms as [|[k0 y] ms IH]; cbn.
  - by rewrite String.eqb_refl.
  - by destruct (String.eqb k k0).
Qed.

Lemma member_remove_ne k k' ms :
  k <> k' -> member k (remove k' ms) = member k ms.
Proof.
  intros Hne. induction ms as [|[k0 y] ms IH]; [done|]. cbn.
  destruct (String.eqb_spec k' k0) as [->|Hk0]; cbn.
  - by destruct (String.eqb_spec k k0).
  - by rewrite IH.
Qed.

Lemma occurrences_update k k' x ms :
  occurrences k (update k' x ms) = occurrences k ms.
Proof.
  induction ms as [|[k0 y] ms IH]; [done|]. cbn.
  destruct (String.eqb k' k0); cbn; [done|]. by rewrite IH.
Qed.

Lemma occurrences_snoc_ne k k' x ms :
  k <> k' -> occurrences k (ms ++ [(k', x)]) = occurrences k ms.
Proof.
  intros Hne. induction ms as [|[k0 y] ms IH]; cbn.
  - by destruct (String.eqb_spec k k').
  - by rewrite IH.
Qed.

Lemma occurrences_remove_ne k k' ms :
  k <> k' -> occurrences k (remove k' ms) = occurrences k ms.
Proof.
  intros Hne. induction ms as [|[k0 y] ms IH]; [done|]. cbn.
  destruct (String.eqb_spec k' k0) as [->|Hk0]; cbn.
  - by destruct (String.eqb_spec k k0).
  - by rewrite IH.
Qed.

Lemma occurrences_remove_eq k ms :
  occurrences k (remove k ms) = Nat.pred (occurrences k ms).
Proof.
  induction ms as [|[k0 y] ms IH]; [done|]. cbn.
  destruct (String.eqb_spec k k0) as [->|Hk0]; cbn; [done|].
  by destruct (String.eqb_spec k k0).
Qed.

Lemma occurrences_member k ms :
  occurrences k ms = O <-> member k ms = None.
Proof.
  induction ms as [|[k0 y] ms IH]; cbn; [done|].
  by destruct (String.eqb k k0).
Qed.

End Members.

(** ** One edit leaves the other members alone

    A member name is plain when it is not a numeral; every name the
    handlers look up at the top of the document is. *)

Section Edits.

Implicit Types (k : string) (v new : json) (rest : path).

Lemma Get_one v k : gjson.Get v [k] = gjson.step v k.
Proof. cbn. by destruct (gjson.step v k). Qed.

Lemma set_step_ne k k' rest v new v' :
  k <> k' -> strconv.atoui k = None ->
  sjson.set (k' :: rest) v new = Some v' ->
  gjson.step v' k = gjson.step v k.
Proof.
  intros Hne Hk. destruct v as [| | | | |xs|ms]; cbn [sjson.set sjson.build].
  1-5: destruct (strconv.atoui k') as [i|]; intros [= <-]; cbn;
       [by rewrite Hk | by destruct (String.eqb_spec k k')].
  - destruct (strconv.atoui k') as [i|]; [|done].
    destruct (xs !! i) as [sub|].
    + destruct (sjson.set rest sub new); intros [= <-]; cbn. by rewrite Hk.
    + intros [= <-]; cbn. by rewrite Hk.
  - destruct (member k' ms) as [sub|] eqn:Hm.
    + destruct (sjson.set rest sub new); intros [= <-]; cbn.
      by apply member_update_ne.
    + intros [= <-]; cbn. by apply member_snoc_ne.
Qed.

Lemma SetBytes_step_ne k k' rest v new :
  k <> k' -> strconv.atoui k = None ->
  gjson.step (fst (sjson.SetBytes v (k' :: rest) new)) k = gjson.step v k.
Proof.
  intros Hne Hk. unfold sjson.SetBytes.
  destruct (sjson.set (k' :: rest) v new) as [v'|] eqn:Hset; [|done].
  cbn [fst]. by eapply set_step_ne.
Qed.

Lemma SetBytes_count_ne k k' rest v new :
  k <> k' ->
  memberCount k (fst (sjson.SetBytes v (k' :: rest) new)) = memberCount k v.
Proof.
  intros Hne. unfold sjson.SetBytes.
  destruct (sjson.set (k' :: rest) v new) as [v'|] eqn:Hset; [|done].
  cbn [fst]. revert Hset.
  destruct v as [| | | | |xs|ms]; cbn [sjson.set sjson.build].
  1-5: destruct (strconv.atoui k') as [i|]; intros [= <-]; cbn;
       [done | by destruct (String.eqb_spec k k')].
  - destruct (strconv.atoui k') as [i|]; [|done].
    destruct (xs !! i) as [sub|].
    + by destruct (sjson.set rest sub new); intros [= <-].
    + by intros [= <-].
  - destruct (member k' ms) as [sub|] eqn:Hm.
    + destruct (sjson.set rest sub new); intros [= <-]; cbn.
      apply occurrences_update.
    + intros [= <-]; cbn. by apply occurrences_snoc_ne.
Qed.

(** Writing a plain member at the top of anything but an array makes it
    readable there. *)
Lemma SetBytes_step_eq k v new :
  strconv.atoui k = None -> (forall xs, v <> JArr xs) ->
  gjson.step (fst (sjson.SetBytes v [k] new)) k = Some new.
Proof.
  intros Hk Harr. unfold sjson.SetBytes.
  destruct v as [| | | | |xs|ms]; cbn [sjson.set sjson.build]; rewrite ?Hk;
    cbn; rewrite ?String.eqb_refl; try done.
  - by destruct (Harr xs).
  - destruct (member k ms) as [sub|] eqn:Hm; cbn.
    + apply member_update_eq. by rewrite Hm.
    + by apply member_snoc_eq.
Qed.

Lemma SetBytes_array k v new xs :
  strconv.atoui k = None -> fst (sjson.SetBytes (JArr xs) [k] new) = JArr xs.
Proof. intros Hk. unfold sjson.SetBytes. cbn. by rewrite Hk. Qed.

Lemma DeleteBytes_step_ne k k' v :
  k <> k' -> strconv.atoui k = None ->
  gjson.step (fst (sjson.DeleteBytes v [k'])) k = gjson.step v k.
Proof.
  intros Hne Hk. unfold sjson.DeleteBytes.
  destruct v as [| | | | |xs|ms]; cbn; try done.
  - destruct (strconv.atoui k') as [i|]; [|done].
    destruct (xs !! i); cbn; by rewrite ?Hk.
  - destruct (member k' ms); cbn; [|done]. by apply member_remove_ne.
Qed.

Lemma DeleteBytes_count_ne k k' v :
  k <> k' ->
  memberCount k (fst (sjson.DeleteBytes v [k'])) = memberCount k v.
Proof.
  intros Hne. unfold sjson.DeleteBytes.
  destruct v as [| | | | |xs|ms]; cbn; try done.
  - destruct (strconv.atoui k') as [i|]; [|done]. by destruct (xs !! i).
  - destruct (member k' ms); cbn; [|done]. by apply occurrences_remove_ne.
Qed.

Lemma DeleteBytes_count_eq k v :
  memberCount k (fst (sjson.DeleteBytes v [k])) = Nat.pred (memberCount k v).
Proof.
  unfold sjson.DeleteBytes.
  destruct v as [| | | | |xs|ms]; cbn; try done.
  - destruct (strconv.atoui k) as [i|]; [|done]. by destruct (xs !! i).
  - destruct (member k ms) eqn:Hm; cbn; [apply occurrences_remove_eq|].
    apply occurrences_member in Hm. by rewrite Hm.
Qed.

(** No member of that name, nothing to read under that name. *)
Lemma memberCount_step k v :
  strconv.atoui k = None -> memberCount k v = O -> gjson.step v k = None.
Proof.
  intros Hk. destruct v as [| | | | |xs|ms]; cbn; try done.
  - by rewrite Hk.
  - apply occurrences_member.
Qed.

End Edits.

(** [Some x = Some y] gives [x = y] without unfolding either side. *)
Ltac some_eq H := apply (inj Some) in H; subst.

(** ** Indexing the last element *)

Lemma index_last_None {A : Type} (xs : list A) :
  index xs (Z.of_nat (length xs) - 1) = None <-> xs = [].
Proof.
  unfold index. destruct xs as [|x xs]; [done|].
  cbn [length]. destruct (Z.ltb_spec (Z.of_nat (S (length xs)) - 1) 0); [lia|].
  replace (Z.to_nat (Z.of_nat (S (length xs)) - 1)) with (length xs) by lia.
  split; [|done]. intros Hnone. apply lookup_ge_None in Hnone.
  cbn in Hnone. lia.
Qed.


(** ** The four steps of the chat rewriting *)

Section ChatSteps.

Variable cfg : config.
Implicit Types (k : string) (b : json).

Lemma mapModel_step_ne k b :
  k <> "model" -> strconv.atoui k = None ->
  gjson.step (mapModel cfg b) k = gjson.step b k.
Proof. intros. by apply SetBytes_step_ne. Qed.

Lemma mapModel_count_ne k b :
  k <> "model" -> memberCount k (mapModel cfg b) = memberCount k b.
Proof. intros. by apply SetBytes_count_ne. Qed.

Lemma mapModel_model b :
  (forall xs, b <> JArr xs) ->
  gjson.step (mapModel cfg b) "model" =
  Some (JStr match ChatModelMap cfg !! gjson.toString (gjson.Get b ["model"]) with
             | Some mapped => mapped
             | None => ChatModelDefault cfg
             end).
Proof. intros. by apply SetBytes_step_eq. Qed.

Lemma mapModel_array xs : mapModel cfg (JArr xs) = JArr xs.
Proof. done. Qed.

Lemma injectLocale_step_ne k b b' :
  injectLocale cfg b = Some b' ->
  k <> "messages" -> strconv.atoui k = None ->
  gjson.step b' k = gjson.step b k.
Proof.
  unfold injectLocale. intros H Hne Hk.
  destruct (negb _); [|by some_eq H].
  destruct (index _ _) as [last|]; [|done].
  destruct (negb _); some_eq H; [|done].
  by apply SetBytes_step_ne.
Qed.

Lemma injectLocale_count_ne k b b' :
  injectLocale cfg b = Some b' ->
  k <> "messages" -> memberCount k b' = memberCount k b.
Proof.
  unfold injectLocale. intros H Hne.
  destruct (negb _); [|by some_eq H].
  destruct (index _ _) as [last|]; [|done].
  destruct (negb _); some_eq H; [|done].
  by apply SetBytes_count_ne.
Qed.

Lemma injectLocale_None b :
  injectLocale cfg b = None <->
  gjson.Exists (gjson.Get b ["function_call"]) = false /\
  gjson.Array (gjson.Get b ["messages"]) = [].
Proof.
  unfold injectLocale.
  destruct (gjson.Exists (gjson.Get b ["function_call"])); cbn [negb].
  { split; [done|]. by intros [? _]. }
  destruct (index _ _) as [last|] eqn:Hlast.
  - split; [by destruct (negb _)|]. intros [_ Hnil].
    apply index_last_None in Hnil. congruence.
  - apply index_last_None in Hlast. by split.
Qed.

Lemma dropIntent_step_ne k b :
  k <> "intent" -> k <> "intent_threshold" -> k <> "intent_content" ->
  strconv.atoui k = None ->
  gjson.step (dropIntent b) k = gjson.step b k.
Proof.
  intros. unfold dropIntent. by rewrite !DeleteBytes_step_ne.
Qed.

Lemma clampMaxTokens_step_ne k b :
  k <> "max_tokens" -> strconv.atoui k = None ->
  gjson.step (clampMaxTokens cfg b) k = gjson.step b k.
Proof.
  intros. unfold clampMaxTokens.
  destruct (_ <? _); [|done]. by apply SetBytes_step_ne.
Qed.

Lemma clampMaxTokens_count_ne k b :
  k <> "max_tokens" -> memberCount k (clampMaxTokens cfg b) = memberCount k b.
Proof.
  intros. unfold clampMaxTokens.
  destruct (_ <? _); [|done]. by apply SetBytes_count_ne.
Qed.

(** A document that comes out of the rewriting was not an array. *)
Lemma chatBody_not_array xs : chatBody cfg (JArr xs) = None.
Proof. done. Qed.

(** Members the rewriting never names keep their value. *)
Lemma chatBody_step_other k b out :
  chatBody cfg b = Some out ->
  k <> "model" -> k <> "messages" -> k <> "max_tokens" ->
  k <> "intent" -> k <> "intent_threshold" -> k <> "intent_content" ->
  strconv.atoui k = None ->
  gjson.step out k = gjson.step b k.
Proof.
  unfold chatBody. intros H ? ? ? ? ? ? ?.
  destruct (injectLocale cfg (mapModel cfg b)) as [b2|] eqn:Hinj; [|done].
  some_eq H.
  rewrite clampMaxTokens_step_ne, dropIntent_step_ne by done.
  rewrite (injectLocale_step_ne _ _ _ Hinj) by done.
  by apply mapModel_step_ne.
Qed.

End ChatSteps.

(** ** Writing a plain member of one value *)










(** ** The messages member under [injectLocale] *)

Section Messages.

Variable cfg : config.



End Messages.

(** ** [injectLocale] seen from the messages member *)

Section Inject.

Variable cfg : config.



End Inject.

(** ** The handlers at work *)

(** A max_tokens one below the lowest int64 is read as the highest one,
    and is replaced by the ceiling. *)
Example chatBody_wrapped :
  chatBody (sampleConfig ∅ 4096 "zh_CN")
    (JObj [("messages", JArr [JObj [("content", JStr "hi")]]);
           ("max_tokens", JNum (- 9223372036854775809))])
  = chatBody (sampleConfig ∅ 4096 "zh_CN") greedyDoc.
Proof. vm_compute. reflexivity. Qed.

(** The example of the specification: no table, the default model and
    the locale zh_CN. *)
Example chatBody_helloDoc :
  chatBody (sampleConfig ∅ 4096 "zh_CN") helloDoc = Some helloOut.
Proof. vm_compute. reflexivity. Qed.

Example chatBody_greedyDoc :
  chatBody (sampleConfig ∅ 4096 "zh_CN") greedyDoc =
  Some (JObj [("messages",
               JArr [JObj [("content",
                            JStr "hiRespond in the following locale: zh_CN.")]]);
              ("max_tokens", JNum 4096);
              ("model", JStr "deepseek-coder")]).
Proof. vm_compute. reflexivity. Qed.

Example chatBody_callDoc :
  chatBody (sampleConfig ∅ 4096 "zh_CN") callDoc =
  Some (JObj [("function_call", JObj []); ("messages", JArr []);
              ("model", JStr "deepseek-coder")]).
Proof. vm_compute. reflexivity. Qed.

Example chatBody_emptyDoc :
  chatBody (sampleConfig ∅ 4096 "zh_CN") emptyDoc = None.
Proof. vm_compute. reflexivity. Qed.

Example codexBody_codexDoc :
  codexBody (JObj codexDoc) =
  JObj [("prompt", JStr "x"); ("model", JStr "deepseek-coder")].
Proof. vm_compute. reflexivity. Qed.

(** An upstream answering 503 to the chat handler: status, content type
    and body reach the caller, and the body is logged. *)
Example completions_503 :
  completions anyURL
    (sampleService (sampleConfig ∅ 4096 "zh_CN") (Ok (sampleResponse 503)))
    gin.fresh (arrives helloDoc) =
  Some {| response :=
            {| gin.status := 503;
               gin.header := {["Content-Type" := "application/json"]};
               gin.body := "{}"; gin.written := true;
               gin.aborted := false |};
          logged := ["request completions failed: {}"];
          sent :=
            Some {| http.Method := "POST";
                    http.URL := "https://api.deepseek.com/v1/chat/completions";
                    http.Header :=
                      {["Content-Type" := "application/json";
                        "Authorization" := "Bearer sk-chat"]};
                    http.Body := helloOut |} |}.
Proof. vm_compute. reflexivity. Qed.

(** An upstream whose body fails to close: the error of [Close] is
    logged last, after the handler's own line when there is one. *)
Example close_fails :
  logged <$> completions anyURL
               (sampleService (sampleConfig ∅ 4096 "zh_CN")
                  (Ok (brokenResponse 503)))
               gin.fresh (arrives helloDoc)
  = Some ["request completions failed: {}"; "close: broken pipe"] /\
  logged <$> completions anyURL
               (sampleService (sampleConfig ∅ 4096 "zh_CN")
                  (Ok (brokenResponse 200)))
               gin.fresh (arrives helloDoc)
  = Some ["close: broken pipe"] /\
  logged (codeCompletions anyURL
            (sampleService (sampleConfig ∅ 4096 "zh_CN")
               (Ok (brokenResponse 503)))
            gin.fresh (arrives (JObj codexDoc)))
  = ["request completions failed: {}"; "close: broken pipe"] /\
  logged (codeCompletions anyURL
            (sampleService (sampleConfig ∅ 4096 "zh_CN")
               (Ok (brokenResponse 200)))
            gin.fresh (arrives (JObj codexDoc)))
  = ["close: broken pipe"].
Proof. vm_compute. repeat split. Qed.

(** A caller gone before the codex handler reads the body. *)
Example codeCompletions_gone :
  response
    (codeCompletions anyURL
       (sampleService (sampleConfig ∅ 4096 "zh_CN") (Ok (sampleResponse 200)))
       gin.fresh gone) =
  {| gin.status := 408;
     gin.header := {["Content-Type" := "text/event-stream"]};
     gin.body := DONE; gin.written := true; gin.aborted := true |}.
Proof. vm_compute. reflexivity. Qed.

(** ** What the handlers send *)

Section Sent.

Variable validURL : string -> bool.

Lemma setHeaders_Body (key organization project : string)
  (req : http.Request) :
  http.Body (setHeaders key organization project req) = http.Body req.
Proof.
  unfold setHeaders.
  by destruct (negb (String.eqb organization _)),
              (negb (String.eqb project _)).
Qed.

(** The body of the request [completions] sends is the inbound body as
    [chatBody] rewrites it. *)
Lemma completions_body (s : ProxyService) (c : gin.Context) (rq : Inbound)
  (o : Outcome) (req : http.Request) :
  completions validURL s c rq = Some o -> sent o = Some req ->
  exists body,
    ReadAll rq = Ok body /\ chatBody (cfg s) body = Some (http.Body req).
Proof.
  unfold completions, NewRequestWithContext.
  destruct (ReadAll rq) as [body|e]; [|by intros [= <-]].
  destruct (chatBody (cfg s) body) as [out|] eqn:Hout; [|done].
  destruct (validURL _); [|by intros [= <-]].
  intros Ho Hsent. exists body. split; [done|].
  destruct (http.Do _ _) as [resp|err]; [|destruct (IsCanceled err)];
    some_eq Ho; cbn [sent] in Hsent; some_eq Hsent;
    by rewrite setHeaders_Body.
Qed.

(** The body of the request [codeCompletions] sends is the inbound body
    as [codexBody] rewrites it. *)
Lemma codeCompletions_body (s : ProxyService) (c : gin.Context)
  (rq : Inbound) (req : http.Request) :
  sent (codeCompletions validURL s c rq) = Some req ->
  exists body, ReadAll rq = Ok body /\ http.Body req = codexBody body.
Proof.
  unfold codeCompletions, NewRequestWithContext.
  destruct (ctxDone rq); [done|].
  destruct (ReadAll rq) as [body|e]; [|done].
  destruct (validURL _); [|done].
  intros Hsent. exists body. split; [done|].
  destruct (http.Do _ _) as [resp|err];
    [destruct (negb _)|destruct (IsCanceled err)];
    cbn [sent] in Hsent; some_eq Hsent; by rewrite setHeaders_Body.
Qed.

End Sent.

(** * The claims *)

(** ** C1: the model of the outbound chat document *)



(** ** C10: when the last message can be indexed *)

Lemma chatBody_None (cfg : config) (body : json) :
  chatBody cfg body = None <->
  gjson.Exists (gjson.Get body ["function_call"]) = false /\
  gjson.Array (gjson.Get body ["messages"]) = [].
Proof.
  unfold chatBody.
  rewrite (Get_one body "function_call"), (Get_one body "messages").
  rewrite <- (mapModel_step_ne cfg "function_call" body) by done.
  rewrite <- (mapModel_step_ne cfg "messages" body) by done.
  rewrite <- !Get_one, <- (injectLocale_None cfg).
  destruct (injectLocale cfg (mapModel cfg body)); [|done].
  split; discriminate.
Qed.

(** C10.  The chat handler panics on [messages[lastIndex]] exactly when
    the document it has read has no function_call member and its
    messages member is missing, null or an empty array: the index
    [len(messages)-1] is used without a check, so the access is within
    bounds only for a document that has function_call or at least one
    message. *)
Theorem C10_last_message_in_bounds (validURL : string -> bool)
  (s : ProxyService) (c : gin.Context) (rq : Inbound) :
  completions validURL s c rq = None <->
  exists body,
    ReadAll rq = Ok body /\
    gjson.Exists (gjson.Get body ["function_call"]) = false /\
    gjson.Array (gjson.Get body ["messages"]) = [].
Proof.
  unfold completions. destruct (ReadAll rq) as [body|e].
  - split.
    + intros H. exists body. split; [done|]. apply (chatBody_None (cfg s)).
      destruct (chatBody (cfg s) body) as [out|]; [exfalso|done].
      destruct (NewRequestWithContext _ _ _ _); [|done].
      destruct (http.Do _ _); [done|]. by destruct (IsCanceled _).
    + intros (body' & Hbody & Hnone).
      assert (body = body') as <- by congruence.
      apply (chatBody_None (cfg s)) in Hnone. by rewrite Hnone.
  - split; [done|]. by intros (body & ? & _).
Qed.

(** ** C3: the ceiling on max_tokens *)

Lemma chatBody_max_tokens (cfg : config) (body out : json) :
  chatBody cfg body = Some out ->
  exists b,
    gjson.step b "max_tokens" = gjson.step body "max_tokens" /\
    (forall xs, b <> JArr xs) /\
    out = clampMaxTokens cfg b.
Proof.
  intros Hout.
  assert (Harr : forall xs, body <> JArr xs).
  { intros xs ->. by rewrite chatBody_not_array in Hout. }
  unfold chatBody in Hout.
  destruct (injectLocale cfg (mapModel cfg body)) as [b2|] eqn:Hinj; [|done].
  some_eq Hout. exists (dropIntent b2). split; [|split; [|done]].
  - rewrite dropIntent_step_ne by done.
    rewrite (injectLocale_step_ne _ _ _ _ Hinj) by done.
    by apply mapModel_step_ne.
  - intros xs Hxs.
    assert (Hm : gjson.step (dropIntent b2) "model" <> None).
    { rewrite dropIntent_step_ne by done.
      rewrite (injectLocale_step_ne _ _ _ _ Hinj) by done.
      by rewrite mapModel_model. }
    by rewrite Hxs in Hm.
Qed.




(** ** C9: the intent members *)

Lemma dropIntent_count (b : json) :
  memberCount "intent" (dropIntent b) = Nat.pred (memberCount "intent" b) /\
  memberCount "intent_threshold" (dropIntent b)
    = Nat.pred (memberCount "intent_threshold" b) /\
  memberCount "intent_content" (dropIntent b)
    = Nat.pred (memberCount "intent_content" b).
Proof.
  unfold dropIntent. repeat split.
  - rewrite (DeleteBytes_count_ne "intent" "intent_content") by done.
    rewrite (DeleteBytes_count_ne "intent" "intent_threshold") by done.
    apply DeleteBytes_count_eq.
  - rewrite (DeleteBytes_count_ne "intent_threshold" "intent_content")
      by done.
    rewrite DeleteBytes_count_eq.
    by rewrite (DeleteBytes_count_ne "intent_threshold" "intent").
  - rewrite DeleteBytes_count_eq.
    rewrite (DeleteBytes_count_ne "intent_content" "intent_threshold")
      by done.
    by rewrite (DeleteBytes_count_ne "intent_content" "intent").
Qed.

(** Each of the three deletions takes away one member of its name, the
    first, and nothing else in the rewriting adds or removes one. *)
Lemma chatBody_intent_count (cfg : config) (body out : json) :
  chatBody cfg body = Some out ->
  memberCount "intent" out = Nat.pred (memberCount "intent" body) /\
  memberCount "intent_threshold" out
    = Nat.pred (memberCount "intent_threshold" body) /\
  memberCount "intent_content" out
    = Nat.pred (memberCount "intent_content" body).
Proof.
  unfold chatBody. intros Hout.
  destruct (injectLocale cfg (mapModel cfg body)) as [b2|] eqn:Hinj; [|done].
  some_eq Hout. rewrite !clampMaxTokens_count_ne by done.
  destruct (dropIntent_count b2) as (-> & -> & ->).
  rewrite !(injectLocale_count_ne _ _ _ _ Hinj) by done.
  by rewrite !mapModel_count_ne.
Qed.

(** C9, as the code has it.  For each of the names intent,
    intent_threshold and intent_content: when at most one member of the
    inbound document has that name, no member of the outbound chat
    document has it, whatever else the document holds. *)
Theorem C9_intent_removed (cfg : config) (body out : json) :
  chatBody cfg body = Some out ->
  ((memberCount "intent" body <= 1)%nat -> memberCount "intent" out = O) /\
  ((memberCount "intent_threshold" body <= 1)%nat ->
   memberCount "intent_threshold" out = O) /\
  ((memberCount "intent_content" body <= 1)%nat ->
   memberCount "intent_content" out = O).
Proof.
  intros Hout.
  destruct (chatBody_intent_count _ _ _ Hout) as (-> & -> & ->).
  repeat split; lia.
Qed.

Lemma C9_witness :
  memberCount "intent"
    (JObj [("messages",
            JArr [JObj [("content",
                         JStr "hiRespond in the following locale: zh_CN.")]]);
           ("model", JStr "deepseek-coder")]) = O.
Proof.
  refine (proj1 (C9_intent_removed (sampleConfig ∅ 4096 "zh_CN")
                   intentDoc _ _) _).
  - vm_compute. reflexivity.
  - vm_compute. lia.
Defined.

(** A document with two members called intent leaves with the second
    one. *)
Lemma C9_counterexample :
  exists out,
    chatBody (sampleConfig ∅ 4096 "zh_CN") twiceIntentDoc = Some out /\
    memberCount "intent" out = 1%nat /\
    gjson.Get out ["intent"] = Some (JBool false).
Proof. eexists. repeat split; vm_compute; reflexivity. Qed.

(** ** C6: the codex rewriting *)

Lemma codexBody_count (b : json) :
  memberCount "extra" (codexBody b) = Nat.pred (memberCount "extra" b) /\
  memberCount "nwo" (codexBody b) = Nat.pred (memberCount "nwo" b).
Proof.
  unfold codexBody. rewrite !SetBytes_count_ne by done. split.
  - rewrite (DeleteBytes_count_ne "extra" "nwo") by done.
    apply DeleteBytes_count_eq.
  - rewrite DeleteBytes_count_eq.
    by rewrite (DeleteBytes_count_ne "nwo" "extra").
Qed.

Lemma DeleteBytes_object (ms : list (string * json)) (k : string) :
  exists ms', fst (sjson.DeleteBytes (JObj ms) [k]) = JObj ms'.
Proof.
  unfold sjson.DeleteBytes. cbn.
  destruct (member k ms); cbn; by eexists.
Qed.




(** ** C2 and C8: the locale instruction *)








(** ** The responses *)

Section Responses.

Variable validURL : string -> bool.

(** [c.Status] touches the status only, and sets it when the code is
    positive and nothing has been written. *)
Lemma Status_fields (code : Z) (c : gin.Context) :
  gin.header (gin.Status code c) = gin.header c /\
  gin.body (gin.Status code c) = gin.body c /\
  gin.written (gin.Status code c) = gin.written c /\
  gin.aborted (gin.Status code c) = gin.aborted c.
Proof. unfold gin.Status. by destruct (_ && _ && _). Qed.

Lemma Status_status (code : Z) (c : gin.Context) :
  gin.written c = false -> 0 < code ->
  gin.status (gin.Status code c) = code.
Proof.
  intros Hw Hpos. unfold gin.Status. rewrite Hw.
  destruct (Z.ltb_spec 0 code); [|lia].
  destruct (Z.eqb_spec (gin.status c) code); cbn; done.
Qed.

Lemma writeContentType_set (value v : string) (c : gin.Context) :
  gin.header c !! "Content-Type" = Some v -> gin.writeContentType value c = c.
Proof. intros H. unfold gin.writeContentType. by rewrite H. Qed.

(** What [abortCodex] leaves in a fresh context. *)
Lemma abortCodex_fresh (code : Z) :
  gin.header (abortCodex gin.fresh code) !! "Content-Type"
    = Some "text/event-stream" /\
  gin.aborted (abortCodex gin.fresh code) = true /\
  gin.body (abortCodex gin.fresh code)
    = (if gin.bodyAllowedForStatus code then DONE else EmptyString) /\
  (0 < code -> gin.status (abortCodex gin.fresh code) = code).
Proof.
  unfold abortCodex, gin.String.
  set (c1 := gin.Header "Content-Type" "text/event-stream" gin.fresh).
  assert (H1 : gin.header c1 !! "Content-Type" = Some "text/event-stream")
    by (vm_compute; reflexivity).
  destruct (Status_fields code c1) as (Hh & Hb & Hw & Ha).
  rewrite (writeContentType_set _ "text/event-stream")
    by (by rewrite Hh).
  destruct (gin.bodyAllowedForStatus code);
    cbn [gin.Abort gin.Write gin.WriteHeaderNow gin.header gin.aborted
         gin.body gin.status];
    rewrite Hh, Hb; (repeat split); try done;
    intros Hpos; by apply Status_status.
Qed.

(** What [relay] leaves in a fresh context. *)
Lemma relay_fresh (resp : http.Response) :
  0 < http.StatusCode resp ->
  gin.status (relay resp gin.fresh) = http.StatusCode resp /\
  gin.header (relay resp gin.fresh) !! "Content-Type"
    = (if String.eqb (http.ContentType resp) EmptyString
       then None else Some (http.ContentType resp)) /\
  gin.body (relay resp gin.fresh) = http.RespBody resp /\
  gin.aborted (relay resp gin.fresh) = false.
Proof.
  intros Hpos. unfold relay, io.Copy, gin.Header.
  destruct (Status_fields (http.StatusCode resp) gin.fresh)
    as (Hh & Hb & Hw & Ha).
  pose proof (Status_status (http.StatusCode resp) gin.fresh eq_refl Hpos)
    as Hs.
  destruct (String.eqb_spec (http.ContentType resp) EmptyString) as [Hct|Hct];
    cbn [negb];
    destruct (String.eqb_spec (http.RespBody resp) EmptyString) as [Hbody|Hbody];
    cbn [gin.Write gin.status gin.header gin.body gin.aborted];
    rewrite ?Hh, ?Hb, ?Ha, ?Hs, ?lookup_insert_eq; repeat split; done.
Qed.

(** The request a handler has sent is the one its client was asked to
    do. *)
Lemma completions_sent (s : ProxyService) (rq : Inbound) (o : Outcome)
  (req : http.Request) :
  completions validURL s gin.fresh rq = Some o -> sent o = Some req ->
  o = match http.Do (client s) req with
      | Err err =>
          if IsCanceled err then
            {| response :=
                 gin.AbortWithStatus http.StatusRequestTimeout gin.fresh;
               logged := []; sent := Some req |}
          else
            {| response :=
                 gin.AbortWithStatus http.StatusInternalServerError gin.fresh;
               logged := [log.Println "request conversation failed:"
                            (ErrorText err)];
               sent := Some req |}
      | Ok resp =>
          {| response := relay resp gin.fresh;
             logged := (if negb (http.StatusCode resp =? http.StatusOK)
                        then [log.Println "request completions failed:"
                                (http.RespBody resp)]
                        else []) ++ closeIO (http.Close resp);
             sent := Some req |}
      end.
Proof.
  unfold completions. destruct (ReadAll rq) as [body|e].
  2: { intros [= <-]. done. }
  destruct (chatBody (cfg s) body) as [body'|]; [|done].
  destruct (NewRequestWithContext _ _ _ _) as [req0|e].
  2: { intros [= <-]. done. }
  destruct (http.Do _ _) as [resp|err] eqn:HDo.
  - intros [= <-] [= <-]. by rewrite HDo.
  - destruct (IsCanceled err) eqn:Hcan; intros [= <-] [= <-];
      by rewrite HDo, Hcan.
Qed.

Lemma codeCompletions_sent (s : ProxyService) (rq : Inbound)
  (req : http.Request) :
  sent (codeCompletions validURL s gin.fresh rq) = Some req ->
  codeCompletions validURL s gin.fresh rq =
  match http.Do (client s) req with
  | Err err =>
      if IsCanceled err then
        {| response := abortCodex gin.fresh http.StatusRequestTimeout;
           logged := []; sent := Some req |}
      else
        {| response := abortCodex gin.fresh http.StatusInternalServerError;
           logged := [log.Println "request completions failed:" (ErrorText err)];
           sent := Some req |}
  | Ok resp =>
      if negb (http.StatusCode resp =? http.StatusOK) then
        {| response := abortCodex gin.fresh (http.StatusCode resp);
           logged := [log.Println "request completions failed:"
                        (http.RespBody resp)] ++ closeIO (http.Close resp);
           sent := Some req |}
      else
        {| response := relay resp gin.fresh;
           logged := closeIO (http.Close resp);
           sent := Some req |}
  end.
Proof.
  unfold codeCompletions. destruct (ctxDone rq); [done|].
  destruct (ReadAll rq) as [body|e]; [|done].
  destruct (NewRequestWithContext _ _ _ _) as [req0|e]; [|done].
  destruct (http.Do _ _) as [resp|err] eqn:HDo.
  - destruct (negb _) eqn:Hok; intros [= <-]; by rewrite HDo, Hok.
  - destruct (IsCanceled err) eqn:Hcan; intros [= <-];
      by rewrite HDo, Hcan.
Qed.

End Responses.

(** ** C4: an upstream answer that is not 200 *)

(** C4, as the code has it.  Let the upstream answer the request a
    handler has sent with a status other than 200 (a positive code, as
    every HTTP status is).  The chat handler answers with that status,
    the upstream's content type when it names one, and the upstream's
    body as it is.  The codex handler answers with that status too, and
    with the payload "data: [DONE]\n" for a body, except for the
    statuses 1xx, 204 and 304, with which gin sends no body.  Both log
    the upstream's body; the only line that may follow it is the one
    [closeIO] logs when the upstream's body fails to close. *)
Theorem C4_upstream_not_OK (validURL : string -> bool) (s : ProxyService)
  (rq : Inbound) (req : http.Request) (resp : http.Response) :
  http.Do (client s) req = Ok resp ->
  http.StatusCode resp <> http.StatusOK ->
  0 < http.StatusCode resp ->
  (forall o,
      completions validURL s gin.fresh rq = Some o -> sent o = Some req ->
      gin.status (response o) = http.StatusCode resp /\
      gin.header (response o) !! "Content-Type"
        = (if String.eqb (http.ContentType resp) EmptyString
           then None else Some (http.ContentType resp)) /\
      gin.body (response o) = http.RespBody resp /\
      logged o = log.Println "request completions failed:" (http.RespBody resp)
                 :: closeIO (http.Close resp)) /\
  (sent (codeCompletions validURL s gin.fresh rq) = Some req ->
   let o := codeCompletions validURL s gin.fresh rq in
   gin.status (response o) = http.StatusCode resp /\
   gin.body (response o)
     = (if gin.bodyAllowedForStatus (http.StatusCode resp)
        then DONE else EmptyString) /\
   logged o = log.Println "request completions failed:" (http.RespBody resp)
              :: closeIO (http.Close resp)).
Proof.
  intros HDo Hcode Hpos.
  assert (Hne : negb (http.StatusCode resp =? http.StatusOK) = true).
  { by destruct (Z.eqb_spec (http.StatusCode resp) http.StatusOK). }
  split.
  - intros o Ho Hsent.
    rewrite (completions_sent validURL s rq o req Ho Hsent), HDo, Hne.
    cbn [response logged app].
    destruct (relay_fresh resp Hpos) as (Hs & Hh & Hb & _). by repeat split.
  - intros Hsent o. subst o.
    rewrite (codeCompletions_sent validURL s rq req Hsent), HDo, Hne.
    cbn [response logged app].
    destruct (abortCodex_fresh (http.StatusCode resp)) as (_ & _ & Hb & Hs).
    repeat split; auto.
Qed.

Lemma C4_witness :
  gin.status
    (response (codeCompletions anyURL
                 (sampleService (sampleConfig ∅ 4096 EmptyString)
                    (Ok (sampleResponse 503)))
                 gin.fresh (arrives (JObj codexDoc)))) = 503.
Proof.
  refine (proj1 (proj2 (C4_upstream_not_OK anyURL
                          (sampleService (sampleConfig ∅ 4096 EmptyString)
                             (Ok (sampleResponse 503)))
                          (arrives (JObj codexDoc)) _ (sampleResponse 503)
                          _ _ _) _)).
  - reflexivity.
  - vm_compute. discriminate.
  - vm_compute. reflexivity.
  - vm_compute. reflexivity.
Defined.

(** An upstream answering 204 gets the codex caller the status 204 and
    no body at all. *)
Lemma C4_counterexample :
  let o := codeCompletions anyURL
             (sampleService (sampleConfig ∅ 4096 EmptyString)
                (Ok (sampleResponse 204)))
             gin.fresh (arrives (JObj codexDoc)) in
  gin.status (response o) = 204 /\
  gin.body (response o) = EmptyString /\
  gin.body (response o) <> DONE.
Proof. vm_compute. repeat split; [reflexivity..|discriminate]. Qed.

(** ** C5: the failures of the codex handler *)

(** C5, as the code has it.  Whatever makes the codex handler fail (the
    caller gone when the delay is over, the body unreadable, the request
    not built, the transport failing, the upstream answering with
    another status than 200), the response has the content type
    text/event-stream and the handler chain is aborted.  Its body is
    exactly "data: [DONE]\n" in all these cases but one: for an upstream
    status 1xx, 204 or 304 no body is sent.  A caller gone when the
    delay is over gets the status 408 with that content type and that
    body. *)
Theorem C5_codex_failure (validURL : string -> bool) (s : ProxyService)
  (rq : Inbound) :
  let o := codeCompletions validURL s gin.fresh rq in
  let sentinel (withBody : bool) :=
    gin.header (response o) !! "Content-Type" = Some "text/event-stream" /\
    gin.body (response o) = (if withBody then DONE else EmptyString) /\
    gin.aborted (response o) = true in
  DONE = "data: [DONE]" +:+ String "010"%char EmptyString /\
  (ctxDone rq = true ->
   sentinel true /\ gin.status (response o) = 408) /\
  (forall e, ctxDone rq = false -> ReadAll rq = Err e ->
             sentinel true /\ gin.status (response o) = 400) /\
  (forall body,
      ctxDone rq = false -> ReadAll rq = Ok body ->
      validURL (CodexApiBase (cfg s) +:+ "/chat/completions") = false ->
      sentinel true /\ gin.status (response o) = 500) /\
  (forall req err,
      sent o = Some req -> http.Do (client s) req = Err err ->
      sentinel true) /\
  (forall req resp,
      sent o = Some req -> http.Do (client s) req = Ok resp ->
      http.StatusCode resp <> http.StatusOK ->
      sentinel (gin.bodyAllowedForStatus (http.StatusCode resp))).
Proof.
  intros o sentinel. subst o sentinel. cbv beta.
  split; [done|].
  pose proof (abortCodex_fresh 408) as (H408h & H408a & H408b & H408s).
  pose proof (abortCodex_fresh 400) as (H400h & H400a & H400b & H400s).
  pose proof (abortCodex_fresh 500) as (H500h & H500a & H500b & H500s).
  split; [|split; [|split; [|split]]].
  - intros Hdone. unfold codeCompletions. rewrite Hdone. cbn [response].
    repeat split; auto.
  - intros e Hdone Hread. unfold codeCompletions. rewrite Hdone, Hread.
    cbn [response]. repeat split; auto.
  - intros body Hdone Hread Hurl.
    unfold codeCompletions, NewRequestWithContext.
    rewrite Hdone, Hread, Hurl. cbn [response]. repeat split; auto.
  - intros req err Hsent HDo.
    rewrite (codeCompletions_sent validURL s rq req Hsent), HDo.
    destruct (IsCanceled err); cbn [response]; repeat split; auto.
  - intros req resp Hsent HDo Hcode.
    rewrite (codeCompletions_sent validURL s rq req Hsent), HDo.
    destruct (Z.eqb_spec (http.StatusCode resp) http.StatusOK); [done|].
    cbn [negb response].
    destruct (abortCodex_fresh (http.StatusCode resp)) as (Hh & Ha & Hb & _).
    repeat split; auto.
Qed.

Lemma C5_witness :
  let o := codeCompletions anyURL
             (sampleService (sampleConfig ∅ 4096 EmptyString)
                (Ok (sampleResponse 200)))
             gin.fresh gone in
  (gin.header (response o) !! "Content-Type" = Some "text/event-stream" /\
   gin.body (response o) = DONE /\
   gin.aborted (response o) = true) /\
  gin.status (response o) = 408.
Proof.
  refine (proj1 (proj2 (C5_codex_failure anyURL
                          (sampleService (sampleConfig ∅ 4096 EmptyString)
                             (Ok (sampleResponse 200)))
                          gone)) _).
  reflexivity.
Defined.

(** An upstream answering 204 makes the codex handler fail with an empty
    body. *)
Lemma C5_counterexample :
  let s := sampleService (sampleConfig ∅ 4096 EmptyString)
             (Ok (sampleResponse 204)) in
  let o := codeCompletions anyURL s gin.fresh (arrives (JObj codexDoc)) in
  (exists req, sent o = Some req /\
               http.Do (client s) req = Ok (sampleResponse 204)) /\
  gin.body (response o) <> DONE.
Proof.
  vm_compute. split; [eexists; split; reflexivity | discriminate].
Qed.

(** ** C7: one status for each failure *)

Lemma AbortWithStatus_fresh (code : Z) :
  0 < code ->
  gin.status (gin.AbortWithStatus code gin.fresh) = code /\
  gin.aborted (gin.AbortWithStatus code gin.fresh) = true.
Proof.
  intros Hpos. unfold gin.AbortWithStatus.
  cbn [gin.Abort gin.WriteHeaderNow gin.status gin.aborted].
  split; [|done]. by apply Status_status.
Qed.

(** C7.  Both handlers answer a failure with a status that depends on
    the failure only: 400 when the inbound body cannot be read, 500 when
    the outbound request cannot be built, 408 when the call to the
    upstream ends with the error of a canceled context, the caller
    having gone, and 500, with the cause logged, when it ends with any
    other error.  The codex handler also answers 408 when it finds the
    caller gone before reading the body. *)
Theorem C7_failure_status (validURL : string -> bool) (s : ProxyService)
  (rq : Inbound) :
  ((forall e, ReadAll rq = Err e ->
      exists o, completions validURL s gin.fresh rq = Some o /\
                gin.status (response o) = 400) /\
   (forall body body',
      ReadAll rq = Ok body -> chatBody (cfg s) body = Some body' ->
      validURL (ChatApiBase (cfg s) +:+ "/chat/completions") = false ->
      exists o, completions validURL s gin.fresh rq = Some o /\
                gin.status (response o) = 500) /\
   (forall o req err,
      completions validURL s gin.fresh rq = Some o -> sent o = Some req ->
      http.Do (client s) req = Err err ->
      (IsCanceled err = true -> gin.status (response o) = 408) /\
      (IsCanceled err = false ->
       gin.status (response o) = 500 /\
       logged o = [log.Println "request conversation failed:" (ErrorText err)])))
  /\
  (let o := codeCompletions validURL s gin.fresh rq in
   (ctxDone rq = true -> gin.status (response o) = 408) /\
   (forall e, ctxDone rq = false -> ReadAll rq = Err e ->
              gin.status (response o) = 400) /\
   (forall body,
      ctxDone rq = false -> ReadAll rq = Ok body ->
      validURL (CodexApiBase (cfg s) +:+ "/chat/completions") = false ->
      gin.status (response o) = 500) /\
   (forall req err,
      sent o = Some req -> http.Do (client s) req = Err err ->
      (IsCanceled err = true -> gin.status (response o) = 408) /\
      (IsCanceled err = false ->
       gin.status (response o) = 500 /\
       logged o = [log.Println "request completions failed:" (ErrorText err)]))).
Proof.
  pose proof (AbortWithStatus_fresh 400 eq_refl) as [H400 _].
  pose proof (AbortWithStatus_fresh 408 eq_refl) as [H408 _].
  pose proof (AbortWithStatus_fresh 500 eq_refl) as [H500 _].
  pose proof (abortCodex_fresh 400) as (_ & _ & _ & C400).
  pose proof (abortCodex_fresh 408) as (_ & _ & _ & C408).
  pose proof (abortCodex_fresh 500) as (_ & _ & _ & C500).
  split; [split; [|split]|cbv zeta; split; [|split; [|split]]].
  - intros e Hread. unfold completions. rewrite Hread. by eexists.
  - intros body body' Hread Hbody Hurl.
    unfold completions, NewRequestWithContext.
    rewrite Hread, Hbody, Hurl. by eexists.
  - intros o req err Ho Hsent HDo.
    rewrite (completions_sent validURL s rq o req Ho Hsent), HDo.
    split; intros ->; cbn [response logged]; by repeat split.
  - intros Hdone. unfold codeCompletions. rewrite Hdone. by apply C408.
  - intros e Hdone Hread. unfold codeCompletions. rewrite Hdone, Hread.
    by apply C400.
  - intros body Hdone Hread Hurl.
    unfold codeCompletions, NewRequestWithContext.
    rewrite Hdone, Hread, Hurl. by apply C500.
  - intros req err Hsent HDo.
    rewrite (codeCompletions_sent validURL s rq req Hsent), HDo.
    split; intros ->; cbn [response logged]; repeat split; auto.
Qed.

Lemma C7_witness :
  exists o,
    completions anyURL
      (sampleService (sampleConfig ∅ 4096 EmptyString) (Err refused))
      gin.fresh
      {| ctxDone := false; ReadAll := Err unreadable |} = Some o /\
    gin.status (response o) = 400.
Proof.
  refine (proj1 (proj1 (C7_failure_status anyURL
                          (sampleService (sampleConfig ∅ 4096 EmptyString)
                             (Err refused))
                          {| ctxDone := false; ReadAll := Err unreadable |}))
            unreadable _).
  reflexivity.
Defined.

(** * Further properties *)

(** ** The environment over the configuration file *)

Section Overrides.

Variable LookupEnv : string -> option string.

Lemma overrideField_keeps {A : Type} (proj : config -> A) (f : StructField)
  (c : config) :
  keeps proj f -> proj (overrideField LookupEnv c f) = proj c.
Proof.
  intros Hk. unfold overrideField.
  destruct (String.eqb (Tag f) EmptyString); [done|].
  destruct (LookupEnv _) as [value|]; [|done].
  destruct f as [tag set|tag set|tag]; cbn in Hk; [done| |done].
  by destruct (ParseInt value).
Qed.

Lemma overrideFields_keeps {A : Type} (proj : config -> A)
  (fs : list StructField) (c : config) :
  Forall (keeps proj) fs ->
  proj (fold_left (overrideField LookupEnv) fs c) = proj c.
Proof.
  intros Hfs. revert c.
  induction Hfs as [|f fs Hf _ IH]; intros c; [done|].
  cbn [fold_left]. by rewrite IH, overrideField_keeps.
Qed.

(** A string field that only one turn of the loop assigns. *)
Lemma overrideFields_string (proj : config -> string)
  (before after : list StructField) (tag : string)
  (set : string -> config -> config) (c : config) :
  Forall (keeps proj) before -> Forall (keeps proj) after ->
  (forall v c, proj (set v c) = v) ->
  String.eqb tag EmptyString = false ->
  proj (fold_left (overrideField LookupEnv)
          (before ++ StringField tag set :: after) c) =
  match LookupEnv ("OVERRIDE_" +:+ ToUpper tag) with
  | Some value => value
  | None => proj c
  end.
Proof.
  intros Hb Ha Hset Htag. rewrite fold_left_app. cbn [fold_left].
  rewrite overrideFields_keeps by done.
  unfold overrideField at 1. cbn [Tag]. rewrite Htag.
  destruct (LookupEnv _) as [value|]; [done|].
  by apply overrideFields_keeps.
Qed.

(** An integer field that only one turn of the loop assigns. *)
Lemma overrideFields_int (proj : config -> Z)
  (before after : list StructField) (tag : string)
  (set : Z -> config -> config) (c : config) :
  Forall (keeps proj) before -> Forall (keeps proj) after ->
  (forall n c, proj (set n c) = n) ->
  String.eqb tag EmptyString = false ->
  proj (fold_left (overrideField LookupEnv)
          (before ++ IntField tag set :: after) c) =
  match LookupEnv ("OVERRIDE_" +:+ ToUpper tag) with
  | Some value =>
      match ParseInt value with
      | Some intValue => intValue
      | None => proj c
      end
  | None => proj c
  end.
Proof.
  intros Hb Ha Hset Htag. rewrite fold_left_app. cbn [fold_left].
  rewrite overrideFields_keeps by done.
  unfold overrideField at 1. cbn [Tag]. rewrite Htag.
  destruct (LookupEnv _) as [value|]; [|by apply overrideFields_keeps].
  destruct (ParseInt value); [done|]. by apply overrideFields_keeps.
Qed.

End Overrides.

(** Every field but the one at hand keeps the projection. *)
Ltac keeps_all := repeat constructor; intros; reflexivity.

Ltac string_field_at n :=
  apply (overrideFields_string _ _ (firstn n configFields)
           (skipn (S n) configFields));
  [keeps_all | keeps_all | intros; reflexivity | reflexivity].

Ltac int_field_at n :=
  apply (overrideFields_int _ _ (firstn n configFields)
           (skipn (S n) configFields));
  [keeps_all | keeps_all | intros; reflexivity | reflexivity].

Lemma overrideFields_stringVariables (LookupEnv : string -> option string)
  (c : config) (name : string) (proj : config -> string) :
  In (name, proj) stringVariables ->
  proj (overrideFields LookupEnv c) =
  match LookupEnv name with
  | Some value => value
  | None => proj c
  end.
Proof.
  unfold stringVariables, overrideFields. cbn [In].
  intros H. repeat (destruct H as [H|H]); try done; injection H as <- <-.
  - string_field_at 0%nat.
  - string_field_at 1%nat.
  - string_field_at 3%nat.
  - string_field_at 4%nat.
  - string_field_at 5%nat.
  - string_field_at 6%nat.
  - string_field_at 7%nat.
  - string_field_at 8%nat.
  - string_field_at 9%nat.
  - string_field_at 10%nat.
  - string_field_at 11%nat.
  - string_field_at 14%nat.
Qed.

Lemma overrideFields_intVariables (LookupEnv : string -> option string)
  (c : config) (name : string) (proj : config -> Z) :
  In (name, proj) intVariables ->
  proj (overrideFields LookupEnv c) =
  match LookupEnv name with
  | Some value =>
      match ParseInt value with
      | Some intValue => intValue
      | None => proj c
      end
  | None => proj c
  end.
Proof.
  unfold intVariables, overrideFields. cbn [In].
  intros H. repeat (destruct H as [H|H]); try done; injection H as <- <-.
  - int_field_at 2%nat.
  - int_field_at 13%nat.
Qed.

(** X1.  When the configuration file reads and decodes, [readConfig]
    ends with a configuration in which each string field has the value
    of its variable OVERRIDE_<TAG>, taken as it is, the empty string
    included, when that variable is set, and the value of the file
    otherwise. *)
Theorem X1_string_overrides (ReadFile : string -> result string)
  (Unmarshal : string -> result (option config))
  (LookupEnv : string -> option string) (content : string) (file : config) :
  ReadFile "config.json" = Ok content ->
  Unmarshal content = Ok (Some file) ->
  exists c,
    readConfig ReadFile Unmarshal LookupEnv = Config c /\
    forall name proj,
      In (name, proj) stringVariables ->
      proj c = match LookupEnv name with
               | Some value => value
               | None => proj file
               end.
Proof.
  intros Hread Hdecode. unfold readConfig. rewrite Hread, Hdecode.
  eexists. split; [done|]. intros name proj Hin.
  by apply overrideFields_stringVariables.
Qed.

Lemma X1_witness :
  exists c,
    readConfig sampleFile (sampleDecode (sampleConfig ∅ 4096 "zh_CN"))
      sampleEnv = Config c /\
    forall name proj,
      In (name, proj) stringVariables ->
      proj c = match sampleEnv name with
               | Some value => value
               | None => proj (sampleConfig ∅ 4096 "zh_CN")
               end.
Proof.
  refine (X1_string_overrides sampleFile
            (sampleDecode (sampleConfig ∅ 4096 "zh_CN")) sampleEnv
            "{}" (sampleConfig ∅ 4096 "zh_CN") _ _).
  - reflexivity.
  - reflexivity.
Defined.

(** X2.  When the configuration file reads and decodes, each integer
    field of the configuration has the value of its variable when that
    variable is set to a decimal integer of 64 bits, and the value of
    the file when the variable is not set or does not parse: a value
    that does not parse is passed over in silence. *)
Theorem X2_int_overrides (ReadFile : string -> result string)
  (Unmarshal : string -> result (option config))
  (LookupEnv : string -> option string) (content : string) (file : config) :
  ReadFile "config.json" = Ok content ->
  Unmarshal content = Ok (Some file) ->
  exists c,
    readConfig ReadFile Unmarshal LookupEnv = Config c /\
    forall name proj,
      In (name, proj) intVariables ->
      proj c = match LookupEnv name with
               | Some value =>
                   match ParseInt value with
                   | Some intValue => intValue
                   | None => proj file
                   end
               | None => proj file
               end.
Proof.
  intros Hread Hdecode. unfold readConfig. rewrite Hread, Hdecode.
  eexists. split; [done|]. intros name proj Hin.
  by apply overrideFields_intVariables.
Qed.

Lemma X2_witness :
  exists c,
    readConfig sampleFile (sampleDecode (sampleConfig ∅ 4096 "zh_CN"))
      sampleEnv = Config c /\
    forall name proj,
      In (name, proj) intVariables ->
      proj c = match sampleEnv name with
               | Some value =>
                   match ParseInt value with
                   | Some intValue => intValue
                   | None => proj (sampleConfig ∅ 4096 "zh_CN")
                   end
               | None => proj (sampleConfig ∅ 4096 "zh_CN")
               end.
Proof.
  refine (X2_int_overrides sampleFile
            (sampleDecode (sampleConfig ∅ 4096 "zh_CN")) sampleEnv
            "{}" (sampleConfig ∅ 4096 "zh_CN") _ _).
  - reflexivity.
  - reflexivity.
Defined.

(** X3.  No variable of the environment changes the model table: the
    loop has no case for a map, so the table of the configuration is the
    table of the file. *)
Theorem X3_model_map_from_file (ReadFile : string -> result string)
  (Unmarshal : string -> result (option config))
  (LookupEnv : string -> option string) (c : config) :
  readConfig ReadFile Unmarshal LookupEnv = Config c ->
  exists content file,
    ReadFile "config.json" = Ok content /\
    Unmarshal content = Ok (Some file) /\
    ChatModelMap c = ChatModelMap file.
Proof.
  unfold readConfig.
  destruct (ReadFile "config.json") as [content|e]; [|done].
  destruct (Unmarshal content) as [[file|]|e] eqn:Hdecode; try done.
  intros [= <-]. exists content, file. repeat split; [done|].
  apply overrideFields_keeps. keeps_all.
Qed.

Lemma X3_witness :
  exists content file,
    sampleFile "config.json" = Ok content /\
    sampleDecode (sampleConfig {["gpt-4" := "deepseek-chat"]} 4096 "zh_CN")
      content = Ok (Some file) /\
    ChatModelMap
      (overrideFields
         (fun _ => Some "{}")
         (sampleConfig {["gpt-4" := "deepseek-chat"]} 4096 "zh_CN"))
    = ChatModelMap file.
Proof.
  refine (X3_model_map_from_file sampleFile
            (sampleDecode
               (sampleConfig {["gpt-4" := "deepseek-chat"]} 4096 "zh_CN"))
            (fun _ => Some "{}") _ _).
  reflexivity.
Defined.

Example sampleEnv_loaded :
  readConfig sampleFile (sampleDecode (sampleConfig ∅ 4096 "zh_CN")) sampleEnv
  = Config {| Bind := "127.0.0.1:8181"; ProxyUrl := EmptyString;
              Timeout := 600;
              CodexApiBase := "https://api.deepseek.com/beta";
              CodexApiKey := "sk-codex";
              CodexApiOrganization := EmptyString;
              CodexApiProject := EmptyString;
              ChatApiBase := "https://api.deepseek.com/v1";
              ChatApiKey := "sk-chat";
              ChatApiOrganization := EmptyString;
              ChatApiProject := EmptyString;
              ChatModelDefault := "deepseek-coder";
              ChatModelMap := ∅;
              ChatMaxTokens := 8192;
              ChatLocale := EmptyString |}.
Proof. vm_compute. reflexivity. Qed.

Example ParseInt_samples :
  ParseInt "8192" = Some 8192 /\ ParseInt "+5" = Some 5 /\
  ParseInt "-0" = Some 0 /\ ParseInt "10s" = None /\
  ParseInt " 5" = None /\ ParseInt "-" = None /\
  ParseInt EmptyString = None /\
  ParseInt "9223372036854775807" = Some 9223372036854775807 /\
  ParseInt "9223372036854775808" = None /\
  ParseInt "-9223372036854775808" = Some (-9223372036854775808).
Proof. vm_compute. repeat split; reflexivity. Qed.

(** ** The client *)

Section ClientProperties.

Variable ConfigureTransport : Transport -> option error.
Variable Parse : string -> result URL.
Variable roundTrip : ClientSettings -> http.Request -> result http.Response.

(** X4.  [NewProxyService] fails exactly when [getClient] does, with the
    same error: when HTTP/2 cannot be set up on the transport, or when a
    proxy URL is configured and does not parse.  An empty proxy URL is
    not parsed at all.  The service made holds the configuration it was
    given, and its client goes through the proxy exactly when one is
    configured. *)
Theorem X4_service_made (cfg0 : config) :
  let transport :=
    {| ForceAttemptHTTP2 := true; DisableKeepAlives := false;
       Proxy := None |} in
  (forall e,
      NewProxyService ConfigureTransport Parse roundTrip cfg0 = Err e <->
      ConfigureTransport transport = Some e \/
      (ConfigureTransport transport = None /\
       ProxyUrl cfg0 <> EmptyString /\ Parse (ProxyUrl cfg0) = Err e)) /\
  (forall s,
      NewProxyService ConfigureTransport Parse roundTrip cfg0 = Ok s ->
      cfg s = cfg0 /\
      exists settings,
        getClient ConfigureTransport Parse cfg0 = Ok settings /\
        http.Do (client s) = roundTrip settings /\
        ForceAttemptHTTP2 (ClientTransport settings) = true /\
        DisableKeepAlives (ClientTransport settings) = false /\
        (ProxyUrl cfg0 = EmptyString ->
         Proxy (ClientTransport settings) = None) /\
        (ProxyUrl cfg0 <> EmptyString ->
         exists proxyUrl,
           Parse (ProxyUrl cfg0) = Ok proxyUrl /\
           Proxy (ClientTransport settings) = Some proxyUrl)).
Proof.
  intros transport. unfold NewProxyService, getClient. fold transport.
  destruct (ConfigureTransport transport) as [err|].
  { split.
    - intros e. split.
      + intros [= ->]. by left.
      + intros [[= ->]|[? _]]; done.
    - done. }
  destruct (String.eqb_spec (ProxyUrl cfg0) EmptyString) as [Hempty|Hproxy];
    cbn [negb].
  { split.
    - intros e. split; [done|]. intros [?|(_ & ? & _)]; done.
    - intros s [= <-]. split; [done|]. eexists. split; [done|].
      cbn. repeat split; done. }
  destruct (Parse (ProxyUrl cfg0)) as [proxyUrl|err].
  - split.
    + intros e. split; [done|]. intros [?|(_ & _ & ?)]; done.
    + intros s [= <-]. split; [done|]. eexists. split; [done|].
      cbn. repeat split; try done. intros _. by exists proxyUrl.
  - split.
    + intros e. split.
      * intros [= ->]. right. by repeat split.
      * intros [?|(_ & _ & [= ->])]; done.
    + done.
Qed.

Lemma time_mul_exact (n : Z) :
  -9223372036 <= n <= 9223372036 ->
  time.mul n time.Second = n * 1000000000.
Proof.
  intros Hn. unfold time.mul, time.Second, wrap64.
  rewrite Z.mod_small by lia. lia.
Qed.

(** X5.  The timeout of the client is the configured number of seconds
    as long as that number is at most 9223372036 in absolute value.  Up
    to that bound a positive number sets a deadline and zero or a
    negative number sets none.  From 9223372037 to 18446744073 the
    product leaves the range of 64 bits and comes back negative: such a
    timeout sets no deadline either. *)
Theorem X5_client_timeout (cfg0 : config) (settings : ClientSettings) :
  getClient ConfigureTransport Parse cfg0 = Ok settings ->
  (-9223372036 <= Timeout cfg0 <= 9223372036 ->
   ClientTimeout settings = Timeout cfg0 * 1000000000 /\
   hasDeadline settings = (0 <? Timeout cfg0)) /\
  (9223372037 <= Timeout cfg0 <= 18446744073 ->
   ClientTimeout settings < 0 /\ hasDeadline settings = false).
Proof.
  intros Hclient.
  assert (Ht : ClientTimeout settings = time.mul (Timeout cfg0) time.Second).
  { unfold getClient in Hclient.
    destruct (ConfigureTransport _); [done|].
    destruct (negb _); [destruct (Parse _); [|done]|];
      by injection Hclient as <-. }
  unfold hasDeadline. rewrite Ht. split.
  - intros Hn. rewrite time_mul_exact by done. split; [done|].
    destruct (Z.ltb_spec 0 (Timeout cfg0 * 1000000000)),
             (Z.ltb_spec 0 (Timeout cfg0)); (done || lia).
  - intros Hn. unfold time.mul, time.Second, wrap64.
    assert (Hmod : (Timeout cfg0 * 1000000000 + 2 ^ 63) mod 2 ^ 64
                   = Timeout cfg0 * 1000000000 + 2 ^ 63 - 2 ^ 64).
    { symmetry. apply Z.mod_unique with (q := 1); lia. }
    rewrite Hmod. split; [lia|].
    destruct (Z.ltb_spec 0 (Timeout cfg0 * 1000000000 + 2 ^ 63 - 2 ^ 64
                            - 2 ^ 63)); (done || lia).
Qed.

End ClientProperties.

Lemma X4_witness :
  cfg (sampleService (sampleConfig ∅ 4096 "zh_CN") (Err refused))
  = sampleConfig ∅ 4096 "zh_CN" /\
  exists settings,
    getClient (fun _ => None) (fun raw => Ok {| URLText := raw |})
      (sampleConfig ∅ 4096 "zh_CN") = Ok settings /\
    http.Do (client (sampleService (sampleConfig ∅ 4096 "zh_CN")
                       (Err refused)))
    = (fun _ _ => Err refused) settings /\
    ForceAttemptHTTP2 (ClientTransport settings) = true /\
    DisableKeepAlives (ClientTransport settings) = false /\
    (ProxyUrl (sampleConfig ∅ 4096 "zh_CN") = EmptyString ->
     Proxy (ClientTransport settings) = None) /\
    (ProxyUrl (sampleConfig ∅ 4096 "zh_CN") <> EmptyString ->
     exists proxyUrl,
       (fun raw => Ok {| URLText := raw |})
         (ProxyUrl (sampleConfig ∅ 4096 "zh_CN")) = Ok proxyUrl /\
       Proxy (ClientTransport settings) = Some proxyUrl).
Proof.
  refine (proj2 (X4_service_made (fun _ => None)
                   (fun raw => Ok {| URLText := raw |})
                   (fun _ _ => Err refused)
                   (sampleConfig ∅ 4096 "zh_CN"))
            (sampleService (sampleConfig ∅ 4096 "zh_CN") (Err refused)) _).
  reflexivity.
Defined.

Lemma X5_witness :
  ClientTimeout
    {| ClientTransport :=
         {| ForceAttemptHTTP2 := true; DisableKeepAlives := false;
            Proxy := None |};
       ClientTimeout := 600000000000 |}
  = Timeout (sampleConfig ∅ 4096 "zh_CN") * 1000000000 /\
  hasDeadline
    {| ClientTransport :=
         {| ForceAttemptHTTP2 := true; DisableKeepAlives := false;
            Proxy := None |};
       ClientTimeout := 600000000000 |}
  = (0 <? Timeout (sampleConfig ∅ 4096 "zh_CN")).
Proof.
  refine (proj1 (X5_client_timeout (fun _ => None)
                   (fun raw => Ok {| URLText := raw |})
                   (sampleConfig ∅ 4096 "zh_CN") _ _) _).
  - vm_compute. reflexivity.
  - vm_compute. split; discriminate.
Defined.

(** ** Objects stay objects *)

Lemma set_object_members (k' : string) (rest : path)
  (ms : list (string * json)) (new v' : json) :
  sjson.set (k' :: rest) (JObj ms) new = Some v' ->
  exists ms',
    v' = JObj ms' /\ forall k, k <> k' -> member k ms' = member k ms.
Proof.
  cbn [sjson.set]. destruct (member k' ms) as [sub|].
  - destruct (sjson.set rest sub new) as [sub'|]; [|done].
    intros [= <-]. eexists. split; [done|]. intros k Hk.
    by apply member_update_ne.
  - intros [= <-]. eexists. split; [done|]. intros k Hk.
    by apply member_snoc_ne.
Qed.

Lemma SetBytes_object_members (k' : string) (rest : path)
  (ms : list (string * json)) (new : json) :
  exists ms',
    fst (sjson.SetBytes (JObj ms) (k' :: rest) new) = JObj ms' /\
    forall k, k <> k' -> member k ms' = member k ms.
Proof.
  unfold sjson.SetBytes.
  destruct (sjson.set (k' :: rest) (JObj ms) new) as [v'|] eqn:Hset.
  - by apply set_object_members in Hset.
  - by exists ms.
Qed.

Lemma DeleteBytes_object_members (k' : string) (ms : list (string * json)) :
  exists ms',
    fst (sjson.DeleteBytes (JObj ms) [k']) = JObj ms' /\
    forall k, k <> k' -> member k ms' = member k ms.
Proof.
  unfold sjson.DeleteBytes. cbn.
  destruct (member k' ms); cbn; eexists; (split; [done|]); [|done].
  intros k Hk. by apply member_remove_ne.
Qed.

(** Only an object comes through the chat rewriting, and as an object;
    the members the rewriting does not name are as they were. *)
Lemma chatBody_object (cfg : config) (body out : json) :
  chatBody cfg body = Some out ->
  exists ms ms',
    body = JObj ms /\ out = JObj ms' /\
    forall k,
      k <> "model" -> k <> "messages" -> k <> "max_tokens" ->
      k <> "intent" -> k <> "intent_threshold" -> k <> "intent_content" ->
      member k ms' = member k ms.
Proof.
  intros Hout.
  destruct body as [|b|n|raw num|s|xs|ms]; [by vm_compute in Hout..|].
  exists ms. unfold chatBody in Hout.
  destruct (injectLocale cfg (mapModel cfg (JObj ms))) as [b2|] eqn:Hinj;
    [|done].
  some_eq Hout. unfold mapModel in Hinj.
  destruct (SetBytes_object_members "model" [] ms
              (JStr match ChatModelMap cfg
                            !! gjson.toString (gjson.Get (JObj ms) ["model"])
                    with
                    | Some mapped => mapped
                    | None => ChatModelDefault cfg
                    end)) as (ms1 & Hms1 & H1).
  rewrite Hms1 in Hinj.
  assert (exists ms2, b2 = JObj ms2 /\
                      forall k, k <> "messages" -> member k ms2 = member k ms1)
    as (ms2 & -> & H2).
  { unfold injectLocale in Hinj.
    destruct (negb _); [|some_eq Hinj; by exists ms1].
    destruct (index _ _) as [last|]; [|done].
    destruct (negb _); some_eq Hinj; [|by exists ms1].
    apply SetBytes_object_members. }
  unfold dropIntent.
  destruct (DeleteBytes_object_members "intent" ms2) as (ms3 & -> & H3).
  destruct (DeleteBytes_object_members "intent_threshold" ms3)
    as (ms4 & -> & H4).
  destruct (DeleteBytes_object_members "intent_content" ms4)
    as (ms5 & -> & H5).
  unfold clampMaxTokens.
  destruct (_ <? _).
  - destruct (SetBytes_object_members "max_tokens" [] ms5
                (JNum (ChatMaxTokens cfg))) as (ms6 & -> & H6).
    exists ms6. split; [done|]. split; [done|]. intros k ? ? ? ? ? ?.
    rewrite H6, H5, H4, H3, H2, H1; done.
  - exists ms5. split; [done|]. split; [done|]. intros k ? ? ? ? ? ?.
    rewrite H5, H4, H3, H2, H1; done.
Qed.

(** ** What the rewritings leave alone *)

(** X6.  The chat rewriting sends on an object only, and every member of
    it other than model, messages, max_tokens and the three intent
    members leaves with the value it came with: stream, temperature,
    tools, function_call and the like pass through. *)
Theorem X6_chat_members_pass (cfg : config) (body out : json) (k : string) :
  chatBody cfg body = Some out ->
  k <> "model" -> k <> "messages" -> k <> "max_tokens" ->
  k <> "intent" -> k <> "intent_threshold" -> k <> "intent_content" ->
  (exists ms, body = JObj ms) /\
  (exists ms', out = JObj ms') /\
  gjson.Get out [k] = gjson.Get body [k].
Proof.
  intros Hout ? ? ? ? ? ?.
  destruct (chatBody_object _ _ _ Hout) as (ms & ms' & -> & -> & Hk).
  split; [by exists ms|]. split; [by exists ms'|].
  rewrite !Get_one. cbn [gjson.step]. by apply Hk.
Qed.

Lemma X6_witness :
  (exists ms, streamDoc = JObj ms) /\
  (exists ms',
      JObj [("model", JStr "deepseek-coder"); ("stream", JBool true);
            ("temperature", JNum 0);
            ("messages",
             JArr [JObj [("content",
                          JStr "hiRespond in the following locale: zh_CN.")]])]
      = JObj ms') /\
  gjson.Get
    (JObj [("model", JStr "deepseek-coder"); ("stream", JBool true);
           ("temperature", JNum 0);
           ("messages",
            JArr [JObj [("content",
                         JStr "hiRespond in the following locale: zh_CN.")]])])
    ["stream"] = gjson.Get streamDoc ["stream"].
Proof.
  refine (X6_chat_members_pass (sampleConfig ∅ 4096 "zh_CN") streamDoc _
            "stream" _ _ _ _ _ _ _).
  - vm_compute. reflexivity.
  - discriminate.
  - discriminate.
  - discriminate.
  - discriminate.
  - discriminate.
  - discriminate.
Defined.

Lemma codexBody_members (ms : list (string * json)) :
  exists ms',
    codexBody (JObj ms) = JObj ms' /\
    forall k, k <> "extra" -> k <> "nwo" -> k <> "model" ->
              member k ms' = member k ms.
Proof.
  unfold codexBody.
  destruct (DeleteBytes_object_members "extra" ms) as (ms1 & -> & H1).
  destruct (DeleteBytes_object_members "nwo" ms1) as (ms2 & -> & H2).
  destruct (SetBytes_object_members "model" [] ms2 (JStr InstructModel))
    as (ms3 & -> & H3).
  exists ms3. split; [done|]. intros k ? ? ?. rewrite H3, H2, H1; done.
Qed.

(** X7.  The codex rewriting of an object is an object in which every
    member other than extra, nwo and model has the value it came
    with. *)
Theorem X7_codex_members_pass (ms : list (string * json)) :
  exists ms',
    codexBody (JObj ms) = JObj ms' /\
    forall k, k <> "extra" -> k <> "nwo" -> k <> "model" ->
              gjson.Get (JObj ms') [k] = gjson.Get (JObj ms) [k].
Proof.
  destruct (codexBody_members ms) as (ms' & Hms' & Hk).
  exists ms'. split; [done|]. intros k ? ? ?.
  rewrite !Get_one. cbn [gjson.step]. by apply Hk.
Qed.

(** ** Edges of the chat rewriting *)

(** X8.  When max_tokens, read as the handler reads it with
    [Result.Int()], is above the ceiling, the outbound document has the
    ceiling itself there, as a number.  The reading is a 64-bit integer:
    a number without its fraction, wrapped around when it is written in
    digits beyond 64 bits; what the digits of a string add up to; 1 for
    true.  So a max_tokens written as an integer within 64 bits and
    above the ceiling is replaced by the ceiling. *)
Theorem X8_max_tokens_clamped (cfg : config) (body out : json) :
  chatBody cfg body = Some out ->
  (ChatMaxTokens cfg < gjson.Int (gjson.Get body ["max_tokens"]) ->
   gjson.Get out ["max_tokens"] = Some (JNum (ChatMaxTokens cfg))) /\
  (forall n, gjson.Get body ["max_tokens"] = Some (JNum n) ->
             - 2 ^ 63 <= n < 2 ^ 63 -> ChatMaxTokens cfg < n ->
             gjson.Get out ["max_tokens"] = Some (JNum (ChatMaxTokens cfg))).
Proof.
  intros Hout.
  assert (Hclamp : ChatMaxTokens cfg < gjson.Int (gjson.Get body ["max_tokens"])
                   -> gjson.Get out ["max_tokens"]
                      = Some (JNum (ChatMaxTokens cfg))).
  { intros Hlt. rewrite (Get_one body "max_tokens") in Hlt.
    rewrite (Get_one out "max_tokens").
    destruct (chatBody_max_tokens _ _ _ Hout) as (b & Hb & Harr & ->).
    rewrite <- Hb in Hlt. unfold clampMaxTokens. rewrite Get_one.
    destruct (Z.ltb_spec (ChatMaxTokens cfg)
                (gjson.Int (gjson.step b "max_tokens"))); [|lia].
    by apply SetBytes_step_eq. }
  split; [exact Hclamp|].
  intros n Hn Hrange Hlt. apply Hclamp.
  by rewrite Hn, Int_JNum, wrap64_small.
Qed.

Lemma X8_witness :
  gjson.Get
    (JObj [("messages",
            JArr [JObj [("content",
                         JStr "hiRespond in the following locale: zh_CN.")]]);
           ("max_tokens", JNum 4096);
           ("model", JStr "deepseek-coder")])
    ["max_tokens"] = Some (JNum 4096).
Proof.
  refine (proj1 (X8_max_tokens_clamped (sampleConfig ∅ 4096 "zh_CN")
                   (JObj [("messages", JArr [JObj [("content", JStr "hi")]]);
                          ("max_tokens", JStr "99999")]) _ _) _).
  - vm_compute. reflexivity.
  - vm_compute. reflexivity.
Defined.



Lemma chatBody_model (cfg : config) (body out : json) :
  chatBody cfg body = Some out ->
  gjson.Get out ["model"] =
  Some (JStr match ChatModelMap cfg
                     !! gjson.toString (gjson.Get body ["model"]) with
             | Some mapped => mapped
             | None => ChatModelDefault cfg
             end).
Proof.
  intros Hout.
  assert (Harr : forall xs, body <> JArr xs).
  { intros xs ->. by rewrite chatBody_not_array in Hout. }
  unfold chatBody in Hout.
  destruct (injectLocale cfg (mapModel cfg body)) as [b2|] eqn:Hinj; [|done].
  some_eq Hout. rewrite Get_one.
  rewrite clampMaxTokens_step_ne, dropIntent_step_ne by done.
  rewrite (injectLocale_step_ne _ _ _ _ Hinj) by done.
  by apply mapModel_model.
Qed.

(** X10.  A document without model, or with the model null, is looked up
    in the table under the empty name: it leaves with the entry of the
    table for the empty string when there is one, and with the default
    model otherwise. *)
Theorem X10_model_missing (cfg : config) (body out : json) :
  chatBody cfg body = Some out ->
  gjson.Get body ["model"] = None \/ gjson.Get body ["model"] = Some JNull ->
  gjson.Get out ["model"] =
  Some (JStr match ChatModelMap cfg !! EmptyString with
             | Some mapped => mapped
             | None => ChatModelDefault cfg
             end).
Proof.
  intros Hout Hmodel. rewrite (chatBody_model _ _ _ Hout).
  by destruct Hmodel as [-> | ->].
Qed.

Lemma X10_witness :
  gjson.Get
    (JObj [("messages",
            JArr [JObj [("content",
                         JStr "hiRespond in the following locale: zh_CN.")]]);
           ("model", JStr "fallback")])
    ["model"] =
  Some (JStr match ({[EmptyString := "fallback"]} : gmap string string)
                     !! EmptyString with
             | Some mapped => mapped
             | None => "deepseek-coder"
             end).
Proof.
  refine (X10_model_missing
            (sampleConfig {[EmptyString := "fallback"]} 4096 "zh_CN")
            plainDoc _ _ _).
  - vm_compute. reflexivity.
  - left. reflexivity.
Defined.

(** X11.  The chat handler panics on every body that is not a JSON
    object: an array, a string, a number, a boolean or null has no
    messages to index. *)
Theorem X11_chat_needs_object (validURL : string -> bool)
  (s : ProxyService) (c : gin.Context) (rq : Inbound) (body : json) :
  ReadAll rq = Ok body ->
  (forall ms, body <> JObj ms) ->
  completions validURL s c rq = None.
Proof.
  intros Hread Hobj. unfold completions. rewrite Hread.
  destruct (chatBody (cfg s) body) as [out|] eqn:Hout; [|done].
  destruct (chatBody_object _ _ _ Hout) as (ms & _ & -> & _).
  by destruct (Hobj ms).
Qed.

Lemma X11_witness :
  completions anyURL
    (sampleService (sampleConfig ∅ 4096 "zh_CN") (Ok (sampleResponse 200)))
    gin.fresh (arrives (JArr [helloDoc])) = None.
Proof.
  refine (X11_chat_needs_object anyURL _ gin.fresh
            (arrives (JArr [helloDoc])) (JArr [helloDoc]) _ _).
  - reflexivity.
  - discriminate.
Defined.

(** ** The codex rewriting, twice *)

(** X12.  Rewriting a codex document that the rewriting has produced
    changes nothing, provided the inbound document had at most one
    member called extra and at most one called nwo. *)
Theorem X12_codex_idempotent (ms : list (string * json)) :
  (occurrences "extra" ms <= 1)%nat ->
  (occurrences "nwo" ms <= 1)%nat ->
  codexBody (codexBody (JObj ms)) = codexBody (JObj ms).
Proof.
  intros Hextra Hnwo.
  destruct (codexBody_count (JObj ms)) as [Hc1 Hc2].
  assert (Hmodel : gjson.step (codexBody (JObj ms)) "model"
                   = Some (JStr InstructModel)).
  { unfold codexBody.
    destruct (DeleteBytes_object ms "extra") as [ms1 ->].
    destruct (DeleteBytes_object ms1 "nwo") as [ms2 ->].
    by apply SetBytes_step_eq. }
  destruct (codexBody_members ms) as (ms' & Hms' & _).
  rewrite Hms' in *. cbn [memberCount gjson.step] in *.
  assert (Hextra' : member "extra" ms' = None).
  { apply occurrences_member. lia. }
  assert (Hnwo' : member "nwo" ms' = None).
  { apply occurrences_member. lia. }
  unfold codexBody at 1, sjson.DeleteBytes, sjson.SetBytes.
  cbn [sjson.del fst]. rewrite Hextra'. cbn [fst sjson.del].
  rewrite Hnwo'. cbn [fst sjson.set]. rewrite Hmodel. cbn [fst].
  by rewrite update_id.
Qed.

Lemma X12_witness :
  codexBody (codexBody (JObj codexDoc)) = codexBody (JObj codexDoc).
Proof.
  refine (X12_codex_idempotent codexDoc _ _).
  - vm_compute. lia.
  - vm_compute. lia.
Defined.

(** ** The request that goes upstream *)

Lemma setHeaders_request (key organization project : string)
  (method url : string) (body : json) :
  let req := setHeaders key organization project
               {| http.Method := method; http.URL := url;
                  http.Header := ∅; http.Body := body |} in
  http.Method req = method /\ http.URL req = url /\ http.Body req = body /\
  http.Header req !! "Content-Type" = Some "application/json" /\
  http.Header req !! "Authorization" = Some ("Bearer " +:+ key) /\
  http.Header req !! "OpenAI-Organization"
    = (if String.eqb organization EmptyString then None
       else Some organization) /\
  http.Header req !! "OpenAI-Project"
    = (if String.eqb project EmptyString then None else Some project).
Proof.
  unfold setHeaders.
  destruct (String.eqb organization EmptyString),
           (String.eqb project EmptyString);
    cbn [negb http.HeaderSet http.Method http.URL http.Body http.Header];
    repeat split;
    repeat (rewrite lookup_insert_ne by done);
    by rewrite ?lookup_insert_eq, ?lookup_empty.
Qed.

Section Requests.

Variable validURL : string -> bool.

(** The request [completions] has sent, member by member. *)
Lemma completions_request (s : ProxyService) (c : gin.Context)
  (rq : Inbound) (o : Outcome) (req : http.Request) :
  completions validURL s c rq = Some o -> sent o = Some req ->
  exists body out,
    ReadAll rq = Ok body /\ chatBody (cfg s) body = Some out /\
    validURL (ChatApiBase (cfg s) +:+ "/chat/completions") = true /\
    req = setHeaders (ChatApiKey (cfg s)) (ChatApiOrganization (cfg s))
            (ChatApiProject (cfg s))
            {| http.Method := http.MethodPost;
               http.URL := ChatApiBase (cfg s) +:+ "/chat/completions";
               http.Header := ∅; http.Body := out |}.
Proof.
  unfold completions, NewRequestWithContext.
  destruct (ReadAll rq) as [body|e]; [|by intros [= <-]].
  destruct (chatBody (cfg s) body) as [out|] eqn:Hout; [|done].
  destruct (validURL _) eqn:Hurl; [|by intros [= <-]].
  intros Ho Hsent. exists body, out. repeat split; [done|].
  destruct (http.Do _ _) as [resp|err]; [|destruct (IsCanceled err)];
    some_eq Ho; cbn [sent] in Hsent; by some_eq Hsent.
Qed.

Lemma codeCompletions_request (s : ProxyService) (c : gin.Context)
  (rq : Inbound) (req : http.Request) :
  sent (codeCompletions validURL s c rq) = Some req ->
  ctxDone rq = false /\
  validURL (CodexApiBase (cfg s) +:+ "/chat/completions") = true /\
  exists body,
    ReadAll rq = Ok body /\
    req = setHeaders (CodexApiKey (cfg s)) (CodexApiOrganization (cfg s))
            (CodexApiProject (cfg s))
            {| http.Method := http.MethodPost;
               http.URL := CodexApiBase (cfg s) +:+ "/chat/completions";
               http.Header := ∅; http.Body := codexBody body |}.
Proof.
  unfold codeCompletions, NewRequestWithContext.
  destruct (ctxDone rq); [done|].
  destruct (ReadAll rq) as [body|e]; [|done].
  destruct (validURL _) eqn:Hurl; [|done].
  intros Hsent. repeat split. exists body. split; [done|].
  destruct (http.Do _ _) as [resp|err];
    [destruct (negb _)|destruct (IsCanceled err)];
    cbn [sent] in Hsent; by some_eq Hsent.
Qed.

(** X13.  Whatever the chat handler sends upstream is a POST to the chat
    base followed by /chat/completions, a URL that parses, with the
    rewritten body, the content type application/json and the chat key
    as bearer token; it names the organization and the project exactly
    when the configuration has them. *)
Theorem X13_chat_request (s : ProxyService) (c : gin.Context)
  (rq : Inbound) (o : Outcome) (req : http.Request) :
  completions validURL s c rq = Some o -> sent o = Some req ->
  http.Method req = "POST" /\
  http.URL req = ChatApiBase (cfg s) +:+ "/chat/completions" /\
  validURL (http.URL req) = true /\
  (exists body,
      ReadAll rq = Ok body /\ chatBody (cfg s) body = Some (http.Body req)) /\
  http.Header req !! "Content-Type" = Some "application/json" /\
  http.Header req !! "Authorization"
    = Some ("Bearer " +:+ ChatApiKey (cfg s)) /\
  http.Header req !! "OpenAI-Organization"
    = (if String.eqb (ChatApiOrganization (cfg s)) EmptyString then None
       else Some (ChatApiOrganization (cfg s))) /\
  http.Header req !! "OpenAI-Project"
    = (if String.eqb (ChatApiProject (cfg s)) EmptyString then None
       else Some (ChatApiProject (cfg s))).
Proof.
  intros Ho Hsent.
  destruct (completions_request s c rq o req Ho Hsent)
    as (body & out & Hread & Hout & Hurl & ->).
  destruct (setHeaders_request (ChatApiKey (cfg s))
              (ChatApiOrganization (cfg s)) (ChatApiProject (cfg s))
              http.MethodPost
              (ChatApiBase (cfg s) +:+ "/chat/completions") out)
    as (Hm & Hu & Hb & Hct & Hauth & Horg & Hproj).
  rewrite Hm, Hu, Hb. repeat split; try done. by exists body.
Qed.

(** X14.  Whatever the codex handler sends upstream is a POST to the
    codex base followed by /chat/completions, with the rewritten body
    and the codex key as bearer token, the organization and the project
    of the codex backend when configured; and it sends only for a
    caller still there. *)
Theorem X14_codex_request (s : ProxyService) (c : gin.Context)
  (rq : Inbound) (req : http.Request) :
  sent (codeCompletions validURL s c rq) = Some req ->
  ctxDone rq = false /\
  http.Method req = "POST" /\
  http.URL req = CodexApiBase (cfg s) +:+ "/chat/completions" /\
  validURL (http.URL req) = true /\
  (exists body, ReadAll rq = Ok body /\ http.Body req = codexBody body) /\
  http.Header req !! "Content-Type" = Some "application/json" /\
  http.Header req !! "Authorization"
    = Some ("Bearer " +:+ CodexApiKey (cfg s)) /\
  http.Header req !! "OpenAI-Organization"
    = (if String.eqb (CodexApiOrganization (cfg s)) EmptyString then None
       else Some (CodexApiOrganization (cfg s))) /\
  http.Header req !! "OpenAI-Project"
    = (if String.eqb (CodexApiProject (cfg s)) EmptyString then None
       else Some (CodexApiProject (cfg s))).
Proof.
  intros Hsent.
  destruct (codeCompletions_request s c rq req Hsent)
    as (Hdone & Hurl & body & Hread & ->).
  destruct (setHeaders_request (CodexApiKey (cfg s))
              (CodexApiOrganization (cfg s)) (CodexApiProject (cfg s))
              http.MethodPost
              (CodexApiBase (cfg s) +:+ "/chat/completions")
              (codexBody body))
    as (Hm & Hu & Hb & Hct & Hauth & Horg & Hproj).
  rewrite Hm, Hu, Hb. repeat split; try done. by exists body.
Qed.

End Requests.

Lemma X13_witness :
  http.Header helloRequest !! "Authorization" = Some "Bearer sk-chat".
Proof.
  refine (proj1 (proj2 (proj2 (proj2 (proj2 (proj2
            (X13_chat_request anyURL
               (sampleService (sampleConfig ∅ 4096 "zh_CN")
                  (Ok (sampleResponse 200)))
               gin.fresh (arrives helloDoc)
               {| response := relay (sampleResponse 200) gin.fresh;
                  logged := []; sent := Some helloRequest |}
               helloRequest _ _))))))).
  - vm_compute. reflexivity.
  - reflexivity.
Defined.

Lemma X14_witness :
  http.Header codexRequest !! "Authorization" = Some "Bearer sk-codex".
Proof.
  refine (proj1 (proj2 (proj2 (proj2 (proj2 (proj2 (proj2
            (X14_codex_request anyURL
               (sampleService (sampleConfig ∅ 4096 "zh_CN")
                  (Ok (sampleResponse 200)))
               gin.fresh (arrives (JObj codexDoc)) codexRequest _)))))))).
  vm_compute. reflexivity.
Defined.

(** ** The answers *)

Lemma append_empty (s : string) : s +:+ EmptyString = s.
Proof.
  induction s as [|c s IH]; [reflexivity|].
  change (String c (s +:+ EmptyString) = String c s). by f_equal.
Qed.

(** X15.  Whatever context it is given, [abortCodex] leaves the content
    type text/event-stream, also over a content type set before, leaves
    the other headers alone, marks the header as written and the chain
    as aborted, and adds the payload to what the body holds, or nothing
    for a status that allows no body. *)
Theorem X15_abortCodex_any_context (c : gin.Context) (code : Z) :
  gin.header (abortCodex c code) !! "Content-Type"
    = Some "text/event-stream" /\
  (forall k, k <> "Content-Type" ->
             gin.header (abortCodex c code) !! k = gin.header c !! k) /\
  gin.written (abortCodex c code) = true /\
  gin.aborted (abortCodex c code) = true /\
  gin.body (abortCodex c code)
    = (if gin.bodyAllowedForStatus code then gin.body c +:+ DONE
       else gin.body c).
Proof.
  unfold abortCodex, gin.String.
  set (c1 := gin.Header "Content-Type" "text/event-stream" c).
  assert (H1 : gin.header c1 = <["Content-Type" := "text/event-stream"]>
                                 (gin.header c)) by done.
  assert (Hb1 : gin.body c1 = gin.body c) by done.
  destruct (Status_fields code c1) as (Hh & Hb & Hw & Ha).
  rewrite (writeContentType_set _ "text/event-stream")
    by (by rewrite Hh, H1, lookup_insert_eq).
  destruct (gin.bodyAllowedForStatus code);
    cbn [gin.Abort gin.Write gin.WriteHeaderNow gin.header gin.aborted
         gin.body gin.written];
    rewrite Hh, Hb, H1, Hb1; repeat split;
    rewrite ?lookup_insert_eq; try done;
    intros k Hk; by rewrite lookup_insert_ne.
Qed.

(** [relay] aborts nothing. *)
Lemma relay_aborted (resp : http.Response) (c : gin.Context) :
  gin.aborted (relay resp c) = gin.aborted c.
Proof.
  unfold relay, io.Copy, gin.Header.
  destruct (Status_fields (http.StatusCode resp) c) as (_ & _ & _ & Ha).
  destruct (negb _), (String.eqb (http.RespBody resp) EmptyString);
    cbn [gin.Write gin.aborted]; by rewrite ?Ha.
Qed.

(** X16.  Whatever context it is given, [relay] adds the upstream's body
    to what the body holds, sets the content type when the upstream
    names one and leaves it as it is otherwise, leaves the other headers
    alone and aborts nothing.  The status becomes the upstream's when it
    is positive and no header has been written; once the header has been
    written the status stays. *)
Theorem X16_relay_any_context (resp : http.Response) (c : gin.Context) :
  gin.body (relay resp c) = gin.body c +:+ http.RespBody resp /\
  gin.header (relay resp c) !! "Content-Type"
    = (if String.eqb (http.ContentType resp) EmptyString
       then gin.header c !! "Content-Type"
       else Some (http.ContentType resp)) /\
  (forall k, k <> "Content-Type" ->
             gin.header (relay resp c) !! k = gin.header c !! k) /\
  gin.aborted (relay resp c) = gin.aborted c /\
  (gin.written c = false -> 0 < http.StatusCode resp ->
   gin.status (relay resp c) = http.StatusCode resp) /\
  (gin.written c = true -> gin.status (relay resp c) = gin.status c).
Proof.
  unfold relay, io.Copy, gin.Header.
  destruct (Status_fields (http.StatusCode resp) c) as (Hh & Hb & Hw & Ha).
  assert (Hs1 : gin.written c = false -> 0 < http.StatusCode resp ->
                gin.status (gin.Status (http.StatusCode resp) c)
                = http.StatusCode resp) by apply Status_status.
  assert (Hs2 : gin.written c = true ->
                gin.status (gin.Status (http.StatusCode resp) c)
                = gin.status c).
  { intros Hwr. unfold gin.Status. rewrite Hwr.
    by rewrite andb_false_r. }
  destruct (String.eqb_spec (http.ContentType resp) EmptyString) as [Hct|Hct];
    cbn [negb];
    destruct (String.eqb_spec (http.RespBody resp) EmptyString)
      as [Hbody|Hbody];
    cbn [gin.Write gin.status gin.header gin.body gin.aborted];
    rewrite ?Hh, ?Hb, ?Ha, ?Hbody, ?append_empty, ?lookup_insert_eq;
    repeat split; try done;
    intros k Hk; by rewrite lookup_insert_ne.
Qed.

Section Answers.

Variable validURL : string -> bool.

(** X17.  When the upstream answers 200, both handlers do the same: the
    response is the upstream's, status 200, content type and body, and
    the chain is not aborted.  Nothing is logged, unless the upstream's
    body fails to close: the error of [Close] is then the one line. *)
Theorem X17_upstream_OK (s : ProxyService) (rq : Inbound)
  (req : http.Request) (resp : http.Response) :
  http.Do (client s) req = Ok resp ->
  http.StatusCode resp = http.StatusOK ->
  let closing :=
    match http.Close resp with
    | Some err => [ErrorText err]
    | None => []
    end in
  (forall o,
      completions validURL s gin.fresh rq = Some o -> sent o = Some req ->
      response o = relay resp gin.fresh /\ logged o = closing) /\
  (sent (codeCompletions validURL s gin.fresh rq) = Some req ->
   response (codeCompletions validURL s gin.fresh rq) = relay resp gin.fresh /\
   logged (codeCompletions validURL s gin.fresh rq) = closing) /\
  gin.status (relay resp gin.fresh) = 200 /\
  gin.header (relay resp gin.fresh) !! "Content-Type"
    = (if String.eqb (http.ContentType resp) EmptyString
       then None else Some (http.ContentType resp)) /\
  gin.body (relay resp gin.fresh) = http.RespBody resp /\
  gin.aborted (relay resp gin.fresh) = false.
Proof.
  intros HDo Hcode closing. subst closing.
  assert (Hok : negb (http.StatusCode resp =? http.StatusOK) = false).
  { by rewrite Hcode. }
  split; [|split].
  - intros o Ho Hsent.
    rewrite (completions_sent validURL s rq o req Ho Hsent), HDo, Hok. done.
  - intros Hsent.
    rewrite (codeCompletions_sent validURL s rq req Hsent), HDo, Hok. done.
  - assert (Hpos : 0 < http.StatusCode resp) by (by rewrite Hcode).
    destruct (relay_fresh resp Hpos) as (Hs & Hh & Hb & Ha).
    rewrite Hs, Hcode. by repeat split.
Qed.

(** X18.  The chat handler aborts exactly when the upstream has given no
    answer, and then with a bare status, 400, 408 or 500: no header, no
    body.  An answer of the upstream, whatever its status, is relayed
    without aborting. *)
Theorem X18_chat_bare_failure (s : ProxyService) (rq : Inbound)
  (o : Outcome) :
  completions validURL s gin.fresh rq = Some o ->
  ((forall req resp,
       sent o = Some req -> http.Do (client s) req <> Ok resp) ->
   gin.aborted (response o) = true /\
   gin.header (response o) = ∅ /\
   gin.body (response o) = EmptyString /\
   (gin.status (response o) = 400 \/ gin.status (response o) = 408 \/
    gin.status (response o) = 500)) /\
  (forall req resp,
      sent o = Some req -> http.Do (client s) req = Ok resp ->
      gin.aborted (response o) = false).
Proof.
  unfold completions, NewRequestWithContext.
  destruct (ReadAll rq) as [body|e].
  2: { intros [= <-]. split; [|done]. intros _. cbn. repeat split; auto. }
  destruct (chatBody (cfg s) body) as [out|]; [|done].
  destruct (validURL _).
  2: { intros [= <-]. split; [|done]. intros _. cbn. repeat split; auto. }
  destruct (http.Do _ _) as [resp|err] eqn:HDo.
  - intros [= <-]. cbn [sent response]. split.
    + intros Hno. by destruct (Hno _ resp eq_refl).
    + intros req resp' [= <-] _.
      by rewrite relay_aborted.
  - destruct (IsCanceled err); intros [= <-]; cbn [sent response];
      (split; [intros _; cbn; repeat split; auto|]);
      intros req resp [= <-] HDo'; congruence.
Qed.

(** X19.  A handler that has sent nothing upstream has logged nothing.
    The chat handler sends nothing exactly when the body cannot be read
    or the URL does not parse; the codex handler, exactly when the
    caller is gone after the delay, whether or not the body could have
    been read, or the body cannot be read, or the URL does not
    parse. *)
Theorem X19_nothing_sent (s : ProxyService) (c : gin.Context)
  (rq : Inbound) :
  (forall o,
      completions validURL s c rq = Some o ->
      (sent o = None <->
       (exists e, ReadAll rq = Err e) \/
       validURL (ChatApiBase (cfg s) +:+ "/chat/completions") = false) /\
      (sent o = None -> logged o = [])) /\
  (let o := codeCompletions validURL s c rq in
   (sent o = None <->
    ctxDone rq = true \/ (exists e, ReadAll rq = Err e) \/
    validURL (CodexApiBase (cfg s) +:+ "/chat/completions") = false) /\
   (sent o = None -> logged o = [])).
Proof.
  split.
  - unfold completions, NewRequestWithContext. intros o.
    destruct (ReadAll rq) as [body|e].
    2: { intros [= <-]. cbn. split; [|done]. split; [|done].
         intros _. left. by exists e. }
    destruct (chatBody (cfg s) body) as [out|]; [|done].
    destruct (validURL _).
    2: { intros [= <-]. cbn. split; [|done]. split; [|done]. by right. }
    destruct (http.Do _ _) as [resp|err]; [|destruct (IsCanceled err)];
      intros [= <-]; cbn; (split; [|done]); split; try done;
      intros [[e ?]|?]; done.
  - cbv zeta. unfold codeCompletions, NewRequestWithContext.
    destruct (ctxDone rq).
    { cbn. split; [|done]. split; [|done]. by left. }
    destruct (ReadAll rq) as [body|e].
    2: { cbn. split; [|done]. split; [|done].
         intros _. right. left. by exists e. }
    destruct (validURL _).
    2: { cbn. split; [|done]. split; [|done]. intros _. by right; right. }
    destruct (http.Do _ _) as [resp|err];
      [destruct (negb _)|destruct (IsCanceled err)];
      cbn; (split; [|done]); split; try done;
      intros [?|[[e ?]|?]]; done.
Qed.

(** What [closeIO] logs: at most a line, and one exactly when [Close]
    returns an error. *)
Lemma closeIO_length (Close : option error) : (length (closeIO Close) <= 1)%nat.
Proof. destruct Close; cbn; lia. Qed.

Lemma closeIO_logs (Close : option error) :
  closeIO Close <> [] <-> exists err, Close = Some err.
Proof.
  destruct Close as [err|]; cbn; split; try done.
  - intros _. by exists err.
  - by intros [err ?].
Qed.

(** X20.  What a handler logs is its own line, if any, followed by the
    line of [closeIO], if any: two lines at most.  The handler's own
    line is there exactly when the upstream was called and either the
    call failed with an error other than a canceled context or the
    answer had another status than 200.  The line of [closeIO] is there
    exactly when the upstream answered and its body failed to close. *)
Theorem X20_log_discipline (s : ProxyService) (c : gin.Context)
  (rq : Inbound) :
  let failed (o : Outcome) :=
    exists req,
      sent o = Some req /\
      ((exists err, http.Do (client s) req = Err err /\
                    IsCanceled err = false) \/
       (exists resp, http.Do (client s) req = Ok resp /\
                     http.StatusCode resp <> http.StatusOK)) in
  let unclosed (o : Outcome) :=
    exists req resp err,
      sent o = Some req /\ http.Do (client s) req = Ok resp /\
      http.Close resp = Some err in
  let disciplined (o : Outcome) :=
    exists own closing,
      logged o = own ++ closing /\
      (length own <= 1)%nat /\ (length closing <= 1)%nat /\
      (own <> [] <-> failed o) /\ (closing <> [] <-> unclosed o) in
  (forall o,
      completions validURL s c rq = Some o ->
      (length (logged o) <= 2)%nat /\ disciplined o) /\
  (let o := codeCompletions validURL s c rq in
   (length (logged o) <= 2)%nat /\ disciplined o).
Proof.
  intros failed unclosed disciplined.
  assert (Hlen : forall o, disciplined o -> (length (logged o) <= 2)%nat).
  { intros o (own & closing & -> & Hown & Hclosing & _).
    rewrite length_app. lia. }
  assert (Hquiet : forall o,
            logged o = [] ->
            (forall req resp, sent o = Some req ->
                              http.Do (client s) req <> Ok resp) ->
            (forall req err, sent o = Some req ->
                             http.Do (client s) req = Err err ->
                             IsCanceled err = true) ->
            disciplined o).
  { intros o Hlog Hno Hcan. exists [], []. rewrite Hlog.
    split; [done|]. split; [cbn; lia|]. split; [cbn; lia|]. split.
    - split; [done|].
      intros (req & Hsent & [(err & HDo & Hfalse)|(resp & HDo & _)]).
      + rewrite (Hcan _ _ Hsent HDo) in Hfalse. done.
      + by destruct (Hno _ _ Hsent HDo).
    - split; [done|]. intros (req & resp & err & Hsent & HDo & _).
      by destruct (Hno _ _ Hsent HDo). }
  assert (Hfailed : forall o req err,
            sent o = Some req -> http.Do (client s) req = Err err ->
            IsCanceled err = false ->
            logged o = [log.Println "request conversation failed:" (ErrorText err)]
            \/ logged o = [log.Println "request completions failed:" (ErrorText err)] ->
            disciplined o).
  { intros o req err Hsent HDo Hcan Hlog.
    exists (logged o), []. rewrite app_nil_r. split; [done|].
    split; [destruct Hlog as [-> | ->]; cbn; lia|]. split; [cbn; lia|]. split.
    - split; [|destruct Hlog as [-> | ->]; done].
      intros _. exists req. split; [done|]. left. by exists err.
    - split; [done|]. intros (req' & resp & e & Hsent' & HDo' & _).
      congruence. }
  assert (Hanswered : forall o req resp,
            sent o = Some req -> http.Do (client s) req = Ok resp ->
            logged o = (if negb (http.StatusCode resp =? http.StatusOK)
                        then [log.Println "request completions failed:"
                                (http.RespBody resp)]
                        else []) ++ closeIO (http.Close resp) ->
            disciplined o).
  { intros o req resp Hsent HDo Hlog.
    eexists _, _. split; [exact Hlog|].
    split; [destruct (negb _); cbn; lia|].
    split; [apply closeIO_length|]. split.
    - destruct (Z.eqb_spec (http.StatusCode resp) http.StatusOK) as [Hc|Hc];
        cbn [negb].
      + split; [done|].
        intros (req' & Hsent' & [(err & HDo' & _)|(resp' & HDo' & Hne)]);
          [congruence|].
        assert (resp' = resp) as -> by congruence. done.
      + split; [|done]. intros _. exists req. split; [done|]. right.
        by exists resp.
    - rewrite closeIO_logs. split.
      + intros [err Herr]. by exists req, resp, err.
      + intros (req' & resp' & err & Hsent' & HDo' & Herr).
        assert (resp' = resp) as -> by congruence. by exists err. }
  assert (Hall : forall o, disciplined o ->
                           (length (logged o) <= 2)%nat /\ disciplined o).
  { intros o Ho. split; [by apply Hlen|done]. }
  clearbody failed unclosed disciplined. split.
  - unfold completions, NewRequestWithContext. intros o.
    destruct (ReadAll rq) as [body|e].
    2: { intros [= <-]. by apply Hall, Hquiet. }
    destruct (chatBody (cfg s) body) as [out|]; [|done].
    destruct (validURL _).
    2: { intros [= <-]. by apply Hall, Hquiet. }
    destruct (http.Do _ _) as [resp|err] eqn:HDo.
    + intros [= <-]. apply Hall. by eapply Hanswered.
    + destruct (IsCanceled err) eqn:Hcan; intros [= <-]; apply Hall.
      * apply Hquiet; [done|..]; cbn [sent]; intros req ? [= <-] ?; congruence.
      * eapply Hfailed; [done|exact HDo|exact Hcan|by left].
  - cbv zeta. unfold codeCompletions, NewRequestWithContext.
    destruct (ctxDone rq); [by apply Hall, Hquiet|].
    destruct (ReadAll rq) as [body|e]; [|by apply Hall, Hquiet].
    destruct (validURL _); [|by apply Hall, Hquiet].
    destruct (http.Do _ _) as [resp|err] eqn:HDo.
    + destruct (negb (http.StatusCode resp =? http.StatusOK)) eqn:Hok;
        apply Hall; (eapply Hanswered; [done|exact HDo|]);
        cbn [logged]; by rewrite Hok.
    + destruct (IsCanceled err) eqn:Hcan; apply Hall.
      * apply Hquiet; [done|..]; cbn [sent]; intros req ? [= <-] ?; congruence.
      * eapply Hfailed; [done|exact HDo|exact Hcan|by right].
Qed.

End Answers.

Lemma X17_witness :
  response
    (codeCompletions anyURL
       (sampleService (sampleConfig ∅ 4096 "zh_CN") (Ok (sampleResponse 200)))
       gin.fresh (arrives (JObj codexDoc)))
  = relay (sampleResponse 200) gin.fresh /\
  logged
    (codeCompletions anyURL
       (sampleService (sampleConfig ∅ 4096 "zh_CN") (Ok (sampleResponse 200)))
       gin.fresh (arrives (JObj codexDoc))) = [].
Proof.
  refine (proj1 (proj2 (X17_upstream_OK anyURL
                          (sampleService (sampleConfig ∅ 4096 "zh_CN")
                             (Ok (sampleResponse 200)))
                          (arrives (JObj codexDoc)) codexRequest
                          (sampleResponse 200) _ _)) _).
  - reflexivity.
  - reflexivity.
  - vm_compute. reflexivity.
Defined.

Lemma X18_witness :
  gin.aborted (gin.AbortWithStatus http.StatusBadRequest gin.fresh) = true /\
  gin.header (gin.AbortWithStatus http.StatusBadRequest gin.fresh) = ∅ /\
  gin.body (gin.AbortWithStatus http.StatusBadRequest gin.fresh)
    = EmptyString /\
  (gin.status (gin.AbortWithStatus http.StatusBadRequest gin.fresh) = 400 \/
   gin.status (gin.AbortWithStatus http.StatusBadRequest gin.fresh) = 408 \/
   gin.status (gin.AbortWithStatus http.StatusBadRequest gin.fresh) = 500).
Proof.
  refine (proj1 (X18_chat_bare_failure anyURL
                   (sampleService (sampleConfig ∅ 4096 "zh_CN")
                      (Ok (sampleResponse 200)))
                   {| ctxDone := false; ReadAll := Err unreadable |}
                   {| response :=
                        gin.AbortWithStatus http.StatusBadRequest gin.fresh;
                      logged := []; sent := None |} _) _).
  - reflexivity.
  - intros req resp Hsent. discriminate Hsent.
Defined.

Lemma X19_witness :
  logged
    (codeCompletions anyURL
       (sampleService (sampleConfig ∅ 4096 "zh_CN") (Ok (sampleResponse 200)))
       gin.fresh gone) = [].
Proof.
  refine (proj2 (proj2 (X19_nothing_sent anyURL
                          (sampleService (sampleConfig ∅ 4096 "zh_CN")
                             (Ok (sampleResponse 200)))
                          gin.fresh gone)) _).
  reflexivity.
Defined.

Lemma X20_witness :
  (length ["request completions failed: {}"; "close: broken pipe"] <= 2)%nat.
Proof.
  refine (proj1 (proj1 (X20_log_discipline anyURL
                          (sampleService (sampleConfig ∅ 4096 "zh_CN")
                             (Ok (brokenResponse 503)))
                          gin.fresh (arrives helloDoc))
                   {| response := relay (brokenResponse 503) gin.fresh;
                      logged := ["request completions failed: {}";
                                 "close: broken pipe"];
                      sent := Some helloRequest |} _)).
  vm_compute. reflexivity.
Defined.
